(** * lhm: a map of log handles with reopen support

    A shallow embedding of [lhm.go] (package [github.com/mjolnir42/lhm]).

    The package keeps two Go maps, [hmap] from a registration name to a
    [*reopen.FileWriter] and [lmap] from a registration name to a
    [*logrus.Logger], and drives both collaborators.  Loggers and file
    writers are mutable objects reached through pointers, so the model
    keeps them in a store ([World]) and the maps hold addresses: two names
    may be registered with one and the same object.

    Every interaction with the outside (opening a file, renaming one,
    a record handed to a logger's output, a level change of a logger,
    the callback of [Reopen], a signal registration) is appended to a
    trace, in program order.

    The embedded [sync.RWMutex] is not modelled: the operations below run
    one after another, which is the interleaving the lock enforces.

    The repository holds an earlier copy of the file as well, without
    [Init], [Setup] and the early calls; its [New], [Add], [Get...],
    [Del], [Open] and [Reopen] are those modelled here, but for the
    [configured] flag. *)

From Stdlib Require Import ZArith Ascii.
From stdpp Require Import gmap strings list fin_maps.



(** ** Collaborator: logrus *)

Module logrus.

(** [type Level uint32], with the constants of the package in the order
    of their declaration (PanicLevel = 0 ... TraceLevel = 6). *)
Inductive Level : Type :=
| PanicLevel
| FatalLevel
| ErrorLevel
| WarnLevel
| InfoLevel
| DebugLevel
| TraceLevel.

Definition rank (l : Level) : nat :=
  match l with
  | PanicLevel => 0
  | FatalLevel => 1
  | ErrorLevel => 2
  | WarnLevel => 3
  | InfoLevel => 4
  | DebugLevel => 5
  | TraceLevel => 6
  end.

(** A level is the most verbose one when it lets every severity through. *)
Definition most_verbose (l : Level) : Prop :=
  ∀ l' : Level, (rank l' ≤ rank l)%nat.

(** The two fields of [TextFormatter] the package sets. *)
Record TextFormatter : Type := mkTextFormatter {
  DisableColors : bool;
  FullTimestamp : bool
}.

(** The values of [Logger.ExitFunc] that occur: [os.Exit], the default
    of [logrus.New], and the empty function literal of [Init]. *)
Inductive ExitFn : Type :=
| os_Exit
| func_noop.

End logrus.
Export logrus.

(** A Go pointer: [nil] or the address of an object in the store. *)
Inductive ptr : Type :=
| nil_ptr
| Addr (a : nat).

(** A channel value: the nil channel or a channel made by [make]. *)
Inductive chan : Type :=
| nil_chan
| Chan (id : nat).

(** The [io.Writer] values a logger's [Out] takes in this package. *)
Inductive Sink : Type :=
| os_Stderr
| reopen_Stderr
| FileSink (fh : ptr).

(** [logrus.Logger], by the fields the package reads or writes; hooks
    are left out. *)
Record Logger : Type := mkLogger {
  Out : Sink;
  Formatter : TextFormatter;
  Level_ : Level;
  ExitFunc : ExitFn
}.

(** [reopen.FileWriter]: the path and the open file ([None] is a nil
    [*os.File]); a descriptor is named by the moment it was opened. *)
Record FileWriter : Type := mkFileWriter {
  Name : string;
  f : option nat
}.

Definition error : Type := string.

(** An argument of type [interface{}]. *)
Inductive any : Type :=
| any_string (s : string)
| any_error (e : error)
| any_int (z : Z).

Inductive Event : Type :=
| EvRename (oldpath newpath : string)
| EvOpenFile (path : string) (res : option error)
| EvSetLevel (lg : nat) (lvl : Level)
| EvWrite (out : Sink) (lvl : Level) (msg : string)
| EvNotify (c : nat)
| EvAbort (e : error).

#[global] Instance Level_eq_dec : EqDecision Level.
Proof. solve_decision. Defined.
#[global] Instance ptr_eq_dec : EqDecision ptr.
Proof. solve_decision. Defined.
#[global] Instance Sink_eq_dec : EqDecision Sink.
Proof. solve_decision. Defined.
#[global] Instance Event_eq_dec : EqDecision Event.
Proof. solve_decision. Defined.

(** ** The store and the outcome of a call *)

Record World : Type := mkWorld {
  loggers : list Logger;        (* the logrus.Logger objects, by address *)
  writers : list FileWriter;    (* the reopen.FileWriter objects, by address *)
  tick : nat;                   (* how often the environment was consulted *)
  chans : nat;                  (* how many channels were made *)
  trace : list Event
}.

(** A call returns, ends the process ([os.Exit]) or panics (a nil
    dereference). *)
Inductive Outcome (A : Type) : Type :=
| Ret (a : A) (w : World)
| Exits (code : Z) (w : World)
| Panics (w : World).
Arguments Ret {A} a w.
Arguments Exits {A} code w.
Arguments Panics {A} w.

Definition M (A : Type) : Type := World → Outcome A.

Definition ret {A} (a : A) : M A := fun w => Ret a w.

Definition bind {A B} (m : M A) (k : A → M B) : M B :=
  fun w =>
    match m w with
    | Ret a w' => k a w'
    | Exits c w' => Exits c w'
    | Panics w' => Panics w'
    end.

#[global] Instance M_ret : MRet M := @ret.
#[global] Instance M_bind : MBind M := λ A B k m, bind m k.

Definition panic {A} : M A := fun w => Panics w.
Definition exit {A} (code : Z) : M A := fun w => Exits code w.

Definition emit (ev : Event) : M unit :=
  fun w => Ret tt (mkWorld (loggers w) (writers w) (tick w) (chans w)
                           (trace w ++ [ev])).

(** Consulting the environment (the clock, the file system) advances
    [tick]; the answer is the environment's answer at that moment. *)
Definition env_tick : M nat :=
  fun w => Ret (S (tick w))
               (mkWorld (loggers w) (writers w) (S (tick w)) (chans w) (trace w)).

Definition set_loggers (ls : list Logger) : M unit :=
  fun w => Ret tt (mkWorld ls (writers w) (tick w) (chans w) (trace w)).

Definition set_writers (ws : list FileWriter) : M unit :=
  fun w => Ret tt (mkWorld (loggers w) ws (tick w) (chans w) (trace w)).

Definition get_loggers : M (list Logger) := fun w => Ret (loggers w) w.
Definition get_writers : M (list FileWriter) := fun w => Ret (writers w) w.

(** [make(chan os.Signal, 1)] *)
Definition make_chan : M nat :=
  fun w => Ret (chans w)
               (mkWorld (loggers w) (writers w) (tick w) (S (chans w)) (trace w)).

(** [signal.Notify(sc, syscall.SIGUSR2)] *)
Definition signal_Notify (sc : nat) : M unit := emit (EvNotify sc).

(** [strings.HasPrefix]:
    [len(s) >= len(prefix) && s[0:len(prefix)] == prefix]. *)
Definition HasPrefix (s prefix : string) : bool :=
  (String.length prefix <=? String.length s)%nat
  && String.eqb (String.substring 0 (String.length prefix) s) prefix.

(** ** The registry *)

(** [type LogHandleMap struct]; the embedded mutex is left out. *)
Record LogHandleMap : Type := mkLogHandleMap {
  hmap : gmap string ptr;
  lmap : gmap string ptr;
  bp : string;
  signal : chan;
  configured : bool
}.

(** Indexing a Go map: the zero value, a nil pointer, for a missing key. *)
Definition index (m : gmap string ptr) (key : string) : ptr :=
  default nil_ptr (m !! key).

(** [range] over a Go map visits every key once, in an order the
    language leaves open. *)
Definition ranges (m : gmap string ptr) (order : list (string * ptr)) : Prop :=
  order ≡ₚ map_to_list m.

(** How the [fileloop] of [Reopen] is left: at the end of the range, with
    the lock still held, or through [break] after [abortFunc(err)]. *)
Inductive Pass : Type :=
| Completed
| Aborted (e : error).

(** ** The environment

    What the operating system and the libraries [time], [path/filepath]
    and [fmt] answer is not decided by the package. *)
Section Lhm.

(** [os.OpenFile] on a path at a given moment: [None] is success. *)
Variable os_OpenFile : nat → string → option error.
(** [time.Now().UTC().Format(time.RFC3339)] at a given moment. *)
Variable time_Now : nat → string.
Variable filepath_Join : string → string → string.
Variable fmt_Sprintf : string → list any → string.
Variable fmt_Sprint : list any → string.

Definition now_RFC3339 : M string :=
  k ← env_tick; ret (time_Now k).

(** *** logrus.Logger *)

(** [logrus.New()]: output to [os.Stderr], a zero [TextFormatter],
    [InfoLevel], exit through [os.Exit]. *)
Definition logrus_New : M ptr :=
  ls ← get_loggers;
  set_loggers (ls ++ [mkLogger os_Stderr (mkTextFormatter false false)
                               InfoLevel os_Exit]) ;;
  ret (Addr (length ls)).

(** Dereferencing a [*logrus.Logger]. *)
Definition load_logger (p : ptr) : M (nat * Logger) :=
  match p with
  | nil_ptr => panic
  | Addr a =>
      ls ← get_loggers;
      match ls !! a with
      | Some lg => ret (a, lg)
      | None => panic
      end
  end.

Definition store_logger (a : nat) (lg : Logger) : M unit :=
  ls ← get_loggers; set_loggers (<[a := lg]> ls).

(** [nl.Out = out] *)
Definition Logger_set_Out (p : ptr) (out : Sink) : M unit :=
  '(a, lg) ← load_logger p;
  store_logger a (mkLogger out (Formatter lg) (Level_ lg) (ExitFunc lg)).

(** [nl.Formatter = fm] *)
Definition Logger_set_Formatter (p : ptr) (fm : TextFormatter) : M unit :=
  '(a, lg) ← load_logger p;
  store_logger a (mkLogger (Out lg) fm (Level_ lg) (ExitFunc lg)).

(** [nl.ExitFunc = fn] *)
Definition Logger_set_ExitFunc (p : ptr) (fn : ExitFn) : M unit :=
  '(a, lg) ← load_logger p;
  store_logger a (mkLogger (Out lg) (Formatter lg) (Level_ lg) fn).

(** [lg.Level] *)
Definition Logger_Level (p : ptr) : M Level :=
  '(_, lg) ← load_logger p; ret (Level_ lg).

Definition Logger_SetLevel (p : ptr) (lvl : Level) : M unit :=
  '(a, lg) ← load_logger p;
  store_logger a (mkLogger (Out lg) (Formatter lg) lvl (ExitFunc lg)) ;;
  emit (EvSetLevel a lvl).

(** [logger.IsLevelEnabled(level)] is [logger.level() >= level]. *)
Definition IsLevelEnabled (lg : Logger) (level : Level) : bool :=
  (rank level <=? rank (Level_ lg))%nat.

(** [logger.Log(level, msg)]: the record reaches [Out] when the level is
    enabled. *)
Definition Logger_Log (p : ptr) (level : Level) (msg : string) : M unit :=
  '(_, lg) ← load_logger p;
  if IsLevelEnabled lg level then emit (EvWrite (Out lg) level msg)
  else ret tt.

(** [Infoln] of one string argument. *)
Definition Logger_Infoln (p : ptr) (msg : string) : M unit :=
  Logger_Log p InfoLevel msg.

(** [Printf] logs at [InfoLevel]. *)
Definition Logger_Printf (p : ptr) (format : string) (args : list any) : M unit :=
  Logger_Log p InfoLevel (fmt_Sprintf format args).

(** [logger.Exit(code)] calls [logger.ExitFunc(code)]. *)
Definition Logger_Exit (p : ptr) (code : Z) : M unit :=
  '(_, lg) ← load_logger p;
  match ExitFunc lg with
  | os_Exit => exit code
  | func_noop => ret tt
  end.

(** [logger.Fatal(args...)]: [Log(FatalLevel, args...)] and then
    [logger.Exit(1)]. *)
Definition Logger_Fatal (p : ptr) (args : list any) : M unit :=
  Logger_Log p FatalLevel (fmt_Sprint args) ;;
  Logger_Exit p 1.

(** *** reopen.FileWriter *)

(** The unexported [reopen]: drop the open file, open [Name] again;
    on failure the writer is left with a nil file. *)
Definition FileWriter_reopen (fw : FileWriter) : M (FileWriter * option error) :=
  k ← env_tick;
  emit (EvOpenFile (Name fw) (os_OpenFile k (Name fw))) ;;
  match os_OpenFile k (Name fw) with
  | Some e => ret (mkFileWriter (Name fw) None, Some e)
  | None => ret (mkFileWriter (Name fw) (Some k), None)
  end.

(** [lfHandle.Reopen()] *)
Definition FileWriter_Reopen (p : ptr) : M (option error) :=
  match p with
  | nil_ptr => panic
  | Addr a =>
      ws ← get_writers;
      match ws !! a with
      | None => panic
      | Some fw =>
          '(fw', err) ← FileWriter_reopen fw;
          ws' ← get_writers;
          set_writers (<[a := fw']> ws') ;;
          ret err
      end
  end.

(** [reopen.NewFileWriter(name)] *)
Definition reopen_NewFileWriter (name : string) : M (ptr * option error) :=
  '(fw, err) ← FileWriter_reopen (mkFileWriter name None);
  match err with
  | Some e => ret (nil_ptr, Some e)
  | None =>
      ws ← get_writers;
      set_writers (ws ++ [fw]) ;;
      ret (Addr (length ws), None)
  end.

(** *** The package *)

(** [New] returns an initialized LogHandleMap. *)
Definition New (basepath : string) : M (LogHandleMap * chan) :=
  sc ← make_chan;
  signal_Notify sc;;
  ret (mkLogHandleMap ∅ ∅ basepath (Chan sc) true, Chan sc).

(** [Init] returns a barebone LogHandleMap. *)
Definition Init : M LogHandleMap :=
  nl ← logrus_New;
  Logger_set_Out nl reopen_Stderr;;
  Logger_set_ExitFunc nl func_noop;;
  Logger_set_Formatter nl (mkTextFormatter true true);;
  ts ← now_RFC3339;
  Logger_Infoln nl (fmt_Sprintf "Started early logging at %s" [any_string ts]);;
  Logger_SetLevel nl DebugLevel;;
  ret (mkLogHandleMap ∅ (<["__early" := nl]> ∅) "" nil_chan false).

(** [Setup] upgrades a LogHandleMap created via [Init] into a full map. *)
Definition Setup (basepath : string) (x : LogHandleMap) : M (LogHandleMap * chan) :=
  if configured x then ret (x, signal x)
  else
    Logger_Exit (index (lmap x) "__early") 0;;
    sc ← make_chan;
    signal_Notify sc;;
    ret (mkLogHandleMap (hmap x) (delete "__early" (lmap x)) basepath
                        (Chan sc) true,
         Chan sc).

Definition EarlyPrintf (format : string) (args : list any) (x : LogHandleMap) : M unit :=
  if configured x then ret tt
  else Logger_Printf (index (lmap x) "__early") format args.

Definition EarlyFatal (args : list any) (x : LogHandleMap) : M unit :=
  if configured x then ret tt
  else Logger_Fatal (index (lmap x) "__early") args.

(** [Add] registers a new filehandle. *)
Definition Add (key : string) (fh lg : ptr) (x : LogHandleMap) : LogHandleMap :=
  mkLogHandleMap (<[key := fh]> (hmap x)) (<[key := lg]> (lmap x))
                 (bp x) (signal x) (configured x).

Definition GetFileHandle (key : string) (x : LogHandleMap) : ptr :=
  index (hmap x) key.

Definition GetLogger (key : string) (x : LogHandleMap) : ptr :=
  index (lmap x) key.

(** [Del] removes a filehandle. *)
Definition Del (key : string) (x : LogHandleMap) : LogHandleMap :=
  mkLogHandleMap (delete key (hmap x)) (lmap x)
                 (bp x) (signal x) (configured x).

(** [Open] creates a new logger with registration name [fname], backed
    by [fname.log] at the registered basepath. *)
Definition Open (fname : string) (lvl : Level) (x : LogHandleMap)
  : M (LogHandleMap * option error) :=
  ts ← now_RFC3339;
  emit (EvRename (filepath_Join (bp x) (fname +:+ ".log"))
                 (filepath_Join (bp x) (fname +:+ ".log." +:+ ts)));;
  '(fh, err) ← reopen_NewFileWriter (filepath_Join (bp x) (fname +:+ ".log"));
  match err with
  | Some e => ret (x, Some e)
  | None =>
      nl ← logrus_New;
      Logger_set_Out nl (FileSink fh);;
      Logger_set_Formatter nl (mkTextFormatter true true);;
      ts' ← now_RFC3339;
      Logger_Infoln nl (fmt_Sprintf "Started logfile `%s` at %s"
                                    [any_string fname; any_string ts']);;
      Logger_SetLevel nl lvl;;
      ret (Add fname fh nl x, None)
  end.

Definition getLoggerNolock (key : string) (x : LogHandleMap) : ptr :=
  index (lmap x) key.

Definition rangeLock (x : LogHandleMap) : gmap string ptr := hmap x.

(** [abortFunc(err)]: what the callback does is the caller's business;
    the call is recorded. *)
Definition abortFunc (e : error) : M unit := emit (EvAbort e).

(** The loop labelled [fileloop] in [Reopen], over the entries of
    [x.rangeLock()] in the order the range visits them. *)
Fixpoint fileloop (ignorePrefix : string) (x : LogHandleMap)
         (order : list (string * ptr)) : M Pass :=
  match order with
  | [] => ret Completed
  | (name, lfHandle) :: rest =>
      if HasPrefix name ignorePrefix then fileloop ignorePrefix x rest
      else
        err ← FileWriter_Reopen lfHandle;
        match err with
        | Some e => abortFunc e;; ret (Aborted e)
        | None =>
            let lg := getLoggerNolock name x in
            lvl ← Logger_Level lg;
            Logger_SetLevel lg InfoLevel;;
            ts ← now_RFC3339;
            Logger_Infoln lg (fmt_Sprintf "Reopened logfile `%s` for logrotate at %s"
                                          [any_string name; any_string ts]);;
            Logger_SetLevel lg lvl;;
            fileloop ignorePrefix x rest
        end
  end.

(** One rotation pass: the body of [case <-x.signal:]. *)
Definition Reopen_pass (ignorePrefix : string) (x : LogHandleMap)
           (order : list (string * ptr)) (w : World) (r : Pass) (w' : World) : Prop :=
  ranges (rangeLock x) order ∧ fileloop ignorePrefix x order w = Ret r w'.

(** [Reopen], for the signals received so far: one pass per signal, each
    with the order its range took.  A receive from the nil channel of a
    map that was never set up blocks for ever. *)
Fixpoint Reopen (ignorePrefix : string) (x : LogHandleMap)
         (received : list (list (string * ptr))) : M unit :=
  match signal x, received with
  | nil_chan, _ => ret tt
  | Chan _, [] => ret tt
  | Chan _, order :: rest =>
      fileloop ignorePrefix x order;;
      Reopen ignorePrefix x rest
  end.

(** ** The vocabulary of the statements *)

(** The path of the stream [fname] and its two markers. *)
Definition logfile (x : LogHandleMap) (fname : string) : string :=
  filepath_Join (bp x) (fname +:+ ".log").

Definition started_marker (fname : string) (k : nat) : string :=
  fmt_Sprintf "Started logfile `%s` at %s"
              [any_string fname; any_string (time_Now k)].

Definition rotation_marker (name : string) (k : nat) : string :=
  fmt_Sprintf "Reopened logfile `%s` for logrotate at %s"
              [any_string name; any_string (time_Now k)].

(** The entries of a range the loop does not skip. *)
Definition visited (ignorePrefix : string) (l : list (string * ptr))
  : list (string * ptr) :=
  filter (λ e, HasPrefix e.1 ignorePrefix = false) l.

(** The world after the writer at [a] was reopened and the logger at [b]
    wrote the marker for [name]. *)
Definition visit_ok (name : string) (a : nat) (fw : FileWriter)
           (b : nat) (lg : Logger) (w : World) : World :=
  mkWorld (loggers w)
          (<[a := mkFileWriter (Name fw) (Some (S (tick w)))]> (writers w))
          (S (S (tick w))) (chans w)
          (trace w ++
             [EvOpenFile (Name fw) None;
              EvSetLevel b InfoLevel;
              EvWrite (Out lg) InfoLevel (rotation_marker name (S (S (tick w))));
              EvSetLevel b (Level_ lg)]).

(** The world after the reopen of the writer at [a] failed with [e]. *)
Definition visit_failed (a : nat) (fw : FileWriter) (e : error) (w : World) : World :=
  mkWorld (loggers w)
          (<[a := mkFileWriter (Name fw) None]> (writers w))
          (S (tick w)) (chans w)
          (trace w ++ [EvOpenFile (Name fw) (Some e); EvAbort e]).

(** What a pass from [w] to [w'] leaves in the trace for an entry it
    reopened: the successful open of the writer's path, the logger
    forced to [InfoLevel], one marker record with the time read during
    the pass, and the logger's own level put back. *)
Definition reopened_and_marked (x : LogHandleMap) (w w' : World)
           (e : string * ptr) (evs : list Event) : Prop :=
  ∃ a fw b lg k,
    e.2 = Addr a ∧ writers w !! a = Some fw ∧
    getLoggerNolock e.1 x = Addr b ∧ loggers w !! b = Some lg ∧
    tick w < k ≤ tick w' ∧
    evs = [EvOpenFile (Name fw) None;
           EvSetLevel b InfoLevel;
           EvWrite (Out lg) InfoLevel (rotation_marker e.1 k);
           EvSetLevel b (Level_ lg)].

(** An entry of the range is live when its handle and the logger
    registered under its name are objects of the store. *)
Definition live_entry (x : LogHandleMap) (w : World) (e : string * ptr) : Prop :=
  ∃ a b, e.2 = Addr a ∧ is_Some (writers w !! a) ∧
         getLoggerNolock e.1 x = Addr b ∧ is_Some (loggers w !! b).

(** The errors handed to [abortFunc], the records written by loggers,
    and the files opened, in the order of the trace. *)
Definition aborts (t : list Event) : list error :=
  omap (λ ev, match ev with EvAbort e => Some e | _ => None end) t.

Definition records (t : list Event) : list (Sink * Level * string) :=
  omap (λ ev, match ev with
              | EvWrite out lvl msg => Some (out, lvl, msg)
              | _ => None
              end) t.

Definition opens (t : list Event) : list (string * option error) :=
  omap (λ ev, match ev with
              | EvOpenFile path res => Some (path, res)
              | _ => None
              end) t.

(** [e1] occurs in [t] before [e2] does. *)
Definition precedes (e1 e2 : Event) (t : list Event) : Prop :=
  ∃ i j, i < j ∧ t !! i = Some e1 ∧ t !! j = Some e2.

(** The world with more events in its trace. *)
Definition logged (evs : list Event) (w : World) : World :=
  mkWorld (loggers w) (writers w) (tick w) (chans w) (trace w ++ evs).

(** The world [Init] leaves, and the sentinel in it. *)
Definition Init_world (w : World) : World :=
  mkWorld
    (loggers w ++ [mkLogger reopen_Stderr (mkTextFormatter true true)
                            DebugLevel func_noop])
    (writers w) (S (tick w)) (chans w)
    (trace w ++
       [EvWrite reopen_Stderr InfoLevel
          (fmt_Sprintf "Started early logging at %s"
                       [any_string (time_Now (S (tick w)))]);
        EvSetLevel (length (loggers w)) DebugLevel]).

Definition Init_map (w : World) : LogHandleMap :=
  mkLogHandleMap ∅ (<["__early" := Addr (length (loggers w))]> ∅) "" nil_chan false.

(** ** Reasoning about calls *)

Ltac munfold :=
  unfold mbind, M_bind, bind, mret, M_ret, ret, panic, exit,
    get_loggers, set_loggers, get_writers, set_writers, emit, env_tick,
    make_chan, signal_Notify in *.

Lemma HasPrefix_empty (s : string) : HasPrefix s "" = true.
Proof. unfold HasPrefix. destruct s; reflexivity. Qed.

Lemma rank_inj (l1 l2 : Level) : rank l1 = rank l2 → l1 = l2.
Proof. destruct l1, l2; simpl; intros H; first [reflexivity | discriminate H]. Qed.

(** Index of a Go map after an assignment and after [delete]. *)
Lemma index_insert_eq (m : gmap string ptr) (k : string) (p : ptr) :
  index (<[k := p]> m) k = p.
Proof. unfold index. by rewrite lookup_insert_eq. Qed.

Lemma index_delete_eq (m : gmap string ptr) (k : string) :
  index (delete k m) k = nil_ptr.
Proof. unfold index. by rewrite lookup_delete_eq. Qed.

Lemma index_delete_ne (m : gmap string ptr) (k k' : string) :
  k ≠ k' → index (delete k m) k' = index m k'.
Proof. intros Hne. unfold index. by rewrite lookup_delete_ne. Qed.

(** A skipped entry costs nothing. *)
Lemma fileloop_skip (ignorePrefix : string) (x : LogHandleMap)
      (name : string) (h : ptr) (rest : list (string * ptr)) (w : World) :
  HasPrefix name ignorePrefix = true →
  fileloop ignorePrefix x ((name, h) :: rest) w = fileloop ignorePrefix x rest w.
Proof. intros H. simpl. by rewrite H. Qed.

Lemma fileloop_all_skipped (ignorePrefix : string) (x : LogHandleMap)
      (order : list (string * ptr)) (w : World) :
  Forall (λ e, HasPrefix e.1 ignorePrefix = true) order →
  fileloop ignorePrefix x order w = Ret Completed w.
Proof.
  induction 1 as [|[name h] rest Hskip _ IH]; [reflexivity|].
  rewrite fileloop_skip by exact Hskip. exact IH.
Qed.

(** The store grows at its end: the object allocated last. *)
Lemma lookup_snoc {A} (l : list A) (x : A) : (l ++ [x]) !! length l = Some x.
Proof. by apply list_lookup_middle. Qed.

Lemma insert_snoc {A} (l : list A) (x y : A) : <[length l := y]> (l ++ [x]) = l ++ [y].
Proof.
  rewrite insert_app_r_alt by lia. by rewrite Nat.sub_diag.
Qed.

Ltac mstep :=
  repeat (rewrite ?lookup_snoc, ?insert_snoc; simpl).

(** What [Init] does, in every world. *)
Lemma Init_eval (w : World) :
  Init w =
  Ret (mkLogHandleMap ∅ (<["__early" := Addr (length (loggers w))]> ∅) "" nil_chan false)
      (mkWorld
         (loggers w ++ [mkLogger reopen_Stderr (mkTextFormatter true true)
                                 DebugLevel func_noop])
         (writers w) (S (tick w)) (chans w)
         (trace w ++
            [EvWrite reopen_Stderr InfoLevel
               (fmt_Sprintf "Started early logging at %s"
                            [any_string (time_Now (S (tick w)))]);
             EvSetLevel (length (loggers w)) DebugLevel])).
Proof.
  unfold Init, logrus_New, Logger_set_Out, Logger_set_ExitFunc,
    Logger_set_Formatter, Logger_Infoln, Logger_Log, Logger_SetLevel,
    now_RFC3339, load_logger, store_logger.
  munfold. mstep. by rewrite <- app_assoc.
Qed.

(** [Open] when the file cannot be opened: the error is returned and
    nothing is registered. *)
Lemma Open_failure (fname : string) (lvl : Level) (x : LogHandleMap)
      (w : World) (e : error) :
  os_OpenFile (S (S (tick w))) (logfile x fname) = Some e →
  Open fname lvl x w =
  Ret (x, Some e)
      (mkWorld (loggers w) (writers w) (S (S (tick w))) (chans w)
         (trace w ++
            [EvRename (logfile x fname)
                      (filepath_Join (bp x)
                         (fname +:+ ".log." +:+ time_Now (S (tick w))));
             EvOpenFile (logfile x fname) (Some e)])).
Proof.
  intros He.
  unfold Open, reopen_NewFileWriter, FileWriter_reopen, now_RFC3339, logfile in *.
  munfold. simpl. rewrite He. simpl. by rewrite <- app_assoc.
Qed.

(** [Open] when the file opens. *)
Lemma Open_success (fname : string) (lvl : Level) (x : LogHandleMap) (w : World) :
  os_OpenFile (S (S (tick w))) (logfile x fname) = None →
  Open fname lvl x w =
  Ret (Add fname (Addr (length (writers w))) (Addr (length (loggers w))) x, None)
      (mkWorld
         (loggers w ++
            [mkLogger (FileSink (Addr (length (writers w))))
                      (mkTextFormatter true true) lvl os_Exit])
         (writers w ++ [mkFileWriter (logfile x fname) (Some (S (S (tick w))))])
         (S (S (S (tick w)))) (chans w)
         (trace w ++
            [EvRename (logfile x fname)
                      (filepath_Join (bp x)
                         (fname +:+ ".log." +:+ time_Now (S (tick w))));
             EvOpenFile (logfile x fname) None;
             EvWrite (FileSink (Addr (length (writers w)))) InfoLevel
                     (started_marker fname (S (S (S (tick w)))));
             EvSetLevel (length (loggers w)) lvl])).
Proof.
  intros He.
  unfold Open, reopen_NewFileWriter, FileWriter_reopen, logrus_New,
    Logger_set_Out, Logger_set_Formatter, Logger_Infoln, Logger_Log,
    Logger_SetLevel, now_RFC3339, load_logger, store_logger, logfile,
    started_marker in *.
  munfold. simpl. rewrite He. mstep.
  by rewrite <- !app_assoc.
Qed.

(** [Open] always returns. *)
Lemma Open_returns (fname : string) (lvl : Level) (x : LogHandleMap) (w : World) :
  ∃ x' err w', Open fname lvl x w = Ret (x', err) w'.
Proof.
  destruct (os_OpenFile (S (S (tick w))) (logfile x fname)) as [e|] eqn:He.
  - rewrite (Open_failure _ _ _ _ _ He). eauto.
  - rewrite (Open_success _ _ _ _ He). eauto.
Qed.

Lemma New_eval (basepath : string) (w : World) :
  New basepath w =
  Ret (mkLogHandleMap ∅ ∅ basepath (Chan (chans w)) true, Chan (chans w))
      (mkWorld (loggers w) (writers w) (tick w) (S (chans w))
               (trace w ++ [EvNotify (chans w)])).
Proof. reflexivity. Qed.

(** [Setup] on a map that still holds a sentinel logger whose exit
    function returns. *)
Lemma Setup_unconfigured (basepath : string) (x : LogHandleMap) (w : World)
      (a : nat) (lg : Logger) :
  configured x = false →
  index (lmap x) "__early" = Addr a →
  loggers w !! a = Some lg →
  ExitFunc lg = func_noop →
  Setup basepath x w =
  Ret (mkLogHandleMap (hmap x) (delete "__early" (lmap x)) basepath
                      (Chan (chans w)) true,
       Chan (chans w))
      (mkWorld (loggers w) (writers w) (tick w) (S (chans w))
               (trace w ++ [EvNotify (chans w)])).
Proof.
  intros Hc Hi Hl He. unfold Setup, Logger_Exit, load_logger.
  rewrite Hc, Hi. munfold. simpl. rewrite Hl. simpl. by rewrite He.
Qed.

(** *** One visit of the rotation loop *)

Lemma Logger_eta (lg : Logger) :
  mkLogger (Out lg) (Formatter lg) (Level_ lg) (ExitFunc lg) = lg.
Proof. by destruct lg. Qed.

Lemma fileloop_cons_ok (ignorePrefix : string) (x : LogHandleMap)
      (name : string) (a : nat) (rest : list (string * ptr)) (w : World)
      (fw : FileWriter) (b : nat) (lg : Logger) :
  HasPrefix name ignorePrefix = false →
  writers w !! a = Some fw →
  os_OpenFile (S (tick w)) (Name fw) = None →
  getLoggerNolock name x = Addr b →
  loggers w !! b = Some lg →
  fileloop ignorePrefix x ((name, Addr a) :: rest) w =
  fileloop ignorePrefix x rest (visit_ok name a fw b lg w).
Proof.
  intros Hp Hw Ho Hb Hl. simpl. rewrite Hp, Hb.
  unfold FileWriter_Reopen, FileWriter_reopen, Logger_Level, Logger_SetLevel,
    Logger_Infoln, Logger_Log, now_RFC3339, load_logger, store_logger.
  assert (Hlt : b < length (loggers w)) by (by eapply lookup_lt_Some).
  munfold. simpl. rewrite Hw. simpl. rewrite Ho. simpl.
  repeat (first [ rewrite Hl
                | rewrite list_lookup_insert_eq by (rewrite ?length_insert; exact Hlt) ];
          simpl).
  rewrite list_insert_insert_eq, Logger_eta, (list_insert_id _ _ _ Hl).
  unfold visit_ok, rotation_marker. by rewrite <- !app_assoc.
Qed.

Lemma fileloop_cons_failed (ignorePrefix : string) (x : LogHandleMap)
      (name : string) (a : nat) (rest : list (string * ptr)) (w : World)
      (fw : FileWriter) (e : error) :
  HasPrefix name ignorePrefix = false →
  writers w !! a = Some fw →
  os_OpenFile (S (tick w)) (Name fw) = Some e →
  fileloop ignorePrefix x ((name, Addr a) :: rest) w =
  Ret (Aborted e) (visit_failed a fw e w).
Proof.
  intros Hp Hw Ho. simpl. rewrite Hp.
  unfold FileWriter_Reopen, FileWriter_reopen, abortFunc.
  munfold. simpl. rewrite Hw. simpl. rewrite Ho. simpl.
  unfold visit_failed. by rewrite <- !app_assoc.
Qed.

(** A visit that is followed by a return went one of these two ways. *)
Lemma fileloop_cons_inv (ignorePrefix : string) (x : LogHandleMap)
      (name : string) (h : ptr) (rest : list (string * ptr))
      (w : World) (r : Pass) (w' : World) :
  HasPrefix name ignorePrefix = false →
  fileloop ignorePrefix x ((name, h) :: rest) w = Ret r w' →
  ∃ a fw, h = Addr a ∧ writers w !! a = Some fw ∧
    ((∃ e, os_OpenFile (S (tick w)) (Name fw) = Some e ∧
           r = Aborted e ∧ w' = visit_failed a fw e w)
     ∨ (os_OpenFile (S (tick w)) (Name fw) = None ∧
        ∃ b lg, getLoggerNolock name x = Addr b ∧ loggers w !! b = Some lg ∧
                fileloop ignorePrefix x rest (visit_ok name a fw b lg w) = Ret r w')).
Proof.
  intros Hp Hrun.
  destruct h as [|a]; [simpl in Hrun; rewrite Hp in Hrun; discriminate Hrun|].
  destruct (writers w !! a) as [fw|] eqn:Hw; cycle 1.
  { simpl in Hrun. rewrite Hp in Hrun. unfold FileWriter_Reopen in Hrun.
    munfold. rewrite Hw in Hrun. discriminate Hrun. }
  exists a, fw. split; [reflexivity|]. split; [exact Hw|].
  destruct (os_OpenFile (S (tick w)) (Name fw)) as [e|] eqn:Ho.
  - left. exists e. rewrite (fileloop_cons_failed _ _ _ _ _ _ _ _ Hp Hw Ho) in Hrun.
    by inversion Hrun.
  - right. split; [reflexivity|].
    destruct (getLoggerNolock name x) as [|b] eqn:Hb.
    { simpl in Hrun. rewrite Hp, Hb in Hrun.
      unfold FileWriter_Reopen, FileWriter_reopen, Logger_Level, load_logger in Hrun.
      munfold. simpl in Hrun. rewrite Hw in Hrun. simpl in Hrun.
      rewrite Ho in Hrun. discriminate Hrun. }
    destruct (loggers w !! b) as [lg|] eqn:Hl.
    + exists b, lg. rewrite (fileloop_cons_ok _ _ _ _ _ _ _ _ _ Hp Hw Ho Hb Hl) in Hrun.
      auto.
    + simpl in Hrun. rewrite Hp, Hb in Hrun.
      unfold FileWriter_Reopen, FileWriter_reopen, Logger_Level, load_logger in Hrun.
      munfold. simpl in Hrun. rewrite Hw in Hrun. simpl in Hrun.
      rewrite Ho in Hrun. simpl in Hrun. rewrite Hl in Hrun. discriminate Hrun.
Qed.

(** *** A whole pass *)

Lemma Name_lookup (ws1 ws : list FileWriter) (a : nat) (fw1 : FileWriter) :
  Name <$> ws1 = Name <$> ws →
  ws1 !! a = Some fw1 →
  ∃ fw, ws !! a = Some fw ∧ Name fw = Name fw1.
Proof.
  intros Heq H1. apply (f_equal (.!! a)) in Heq.
  rewrite !list_lookup_fmap, H1 in Heq. simpl in Heq.
  destruct (ws !! a) as [fw|]; simpl in Heq; [|discriminate Heq].
  exists fw. split; [reflexivity|]. by inversion Heq.
Qed.

Lemma Name_insert (ws : list FileWriter) (a : nat) (fw : FileWriter) (o : option nat) :
  ws !! a = Some fw →
  Name <$> <[a := mkFileWriter (Name fw) o]> ws = Name <$> ws.
Proof.
  intros H. rewrite list_fmap_insert. simpl.
  apply list_insert_id. by rewrite list_lookup_fmap, H.
Qed.

Lemma reopened_and_marked_earlier (x : LogHandleMap) (w w1 w' : World)
      (e : string * ptr) (evs : list Event) :
  loggers w1 = loggers w →
  Name <$> writers w1 = Name <$> writers w →
  tick w ≤ tick w1 →
  reopened_and_marked x w1 w' e evs →
  reopened_and_marked x w w' e evs.
Proof.
  intros Hl Hn Ht (a & fw1 & b & lg & k & Ha & Hw & Hb & Hlg & Hk & ->).
  destruct (Name_lookup _ _ _ _ Hn Hw) as (fw & Hfw & Hname).
  exists a, fw, b, lg, k. rewrite Hname, <- Hl.
  repeat split; try assumption; lia.
Qed.

(** Every pass that returns went like this: it ran through a first part
    [pre] of the range, reopening and marking what it did not skip, and
    either came to the end or stopped at the first entry of [post],
    whose reopen failed.  Writers the pass did not call are as before;
    when no writer was called twice, those it reopened are open on a new
    descriptor and the one that failed is closed. *)
Lemma fileloop_sound (ignorePrefix : string) (x : LogHandleMap)
      (order : list (string * ptr)) (w : World) (r : Pass) (w' : World) :
  fileloop ignorePrefix x order w = Ret r w' →
  ∃ pre post chunks,
    order = pre ++ post ∧
    Forall2 (reopened_and_marked x w w') (visited ignorePrefix pre) chunks ∧
    loggers w' = loggers w ∧
    Name <$> writers w' = Name <$> writers w ∧
    chans w' = chans w ∧
    tick w ≤ tick w' ∧
    (∀ a, Addr a ∉ (visited ignorePrefix (pre ++ take 1 post)).*2 →
          writers w' !! a = writers w !! a) ∧
    (NoDup (visited ignorePrefix (pre ++ take 1 post)).*2 →
     ∀ n a, (n, Addr a) ∈ visited ignorePrefix pre →
            ∃ fw k, writers w !! a = Some fw ∧ tick w < k ≤ tick w' ∧
                    writers w' !! a = Some (mkFileWriter (Name fw) (Some k))) ∧
    match r with
    | Completed => post = [] ∧ trace w' = trace w ++ concat chunks
    | Aborted e =>
        ∃ name a fw post',
          post = (name, Addr a) :: post' ∧
          HasPrefix name ignorePrefix = false ∧
          writers w !! a = Some fw ∧
          trace w' = trace w ++ concat chunks
                       ++ [EvOpenFile (Name fw) (Some e); EvAbort e] ∧
          (Addr a ∉ (visited ignorePrefix pre).*2 →
           writers w' !! a = Some (mkFileWriter (Name fw) None))
    end.
Proof.
  revert w. induction order as [|[name h] rest IH]; intros w Hrun.
  - simpl in Hrun. inversion Hrun; subst.
    exists [], [], []. simpl. rewrite app_nil_r.
    repeat split; try reflexivity; try constructor.
    intros _ n a Hin. by apply elem_of_nil in Hin.
  - destruct (HasPrefix name ignorePrefix) eqn:Hp.
    + rewrite fileloop_skip in Hrun by exact Hp.
      destruct (IH _ Hrun)
        as (pre & post & chunks & -> & HF & Hl & Hn & Hc & Ht & Hfr & Hre & Hr).
      exists ((name, h) :: pre), post, chunks.
      assert (Hv : ∀ l, visited ignorePrefix ((name, h) :: l) = visited ignorePrefix l).
      { intros l. unfold visited. apply filter_cons_False. simpl. by rewrite Hp. }
      simpl. rewrite !Hv. repeat split; assumption.
    + destruct (fileloop_cons_inv _ _ _ _ _ _ _ _ Hp Hrun)
        as (a & fw & -> & Hw & [(e & Ho & -> & ->) | (Ho & b & lg & Hb & Hlg & Hrest)]).
      * exists [], ((name, Addr a) :: rest), [].
        assert (Hv : visited ignorePrefix [(name, Addr a)] = [(name, Addr a)]).
        { unfold visited. rewrite filter_cons_True by (simpl; exact Hp). reflexivity. }
        split; [reflexivity|]. split; [constructor|].
        split; [reflexivity|]. split; [by apply Name_insert|].
        split; [reflexivity|]. split; [simpl; lia|]. split.
        { intros a' Hnot. change ([] ++ take 1 ((name, Addr a) :: rest))
            with [(name, Addr a)] in Hnot. rewrite Hv in Hnot.
          apply list_lookup_insert_ne. intros ->. apply Hnot. left. }
        split.
        { intros _ n a' Hin. by apply elem_of_nil in Hin. }
        exists name, a, fw, rest.
        split; [reflexivity|]. split; [exact Hp|]. split; [exact Hw|].
        split; [reflexivity|]. intros _. simpl.
        apply list_lookup_insert_eq. by eapply lookup_lt_Some.
      * destruct (IH _ Hrest)
          as (pre & post & chunks & -> & HF & Hl & Hn & Hc & Ht & Hfr & Hre & Hr).
        set (w1 := visit_ok name a fw b lg w) in *.
        assert (Hn1 : Name <$> writers w1 = Name <$> writers w)
          by (by apply Name_insert).
        assert (Hv : ∀ l, visited ignorePrefix ((name, Addr a) :: l)
                          = (name, Addr a) :: visited ignorePrefix l).
        { intros l. unfold visited. by rewrite filter_cons_True by (simpl; exact Hp). }
        assert (Hw1 : ∀ a', a' ≠ a → writers w1 !! a' = writers w !! a').
        { intros a' Hne. simpl. apply list_lookup_insert_ne. congruence. }
        exists ((name, Addr a) :: pre), post,
          ([EvOpenFile (Name fw) None; EvSetLevel b InfoLevel;
            EvWrite (Out lg) InfoLevel (rotation_marker name (S (S (tick w))));
            EvSetLevel b (Level_ lg)] :: chunks).
        simpl in Ht. simpl app. rewrite !Hv.
        split; [reflexivity|]. split.
        { constructor.
          - exists a, fw, b, lg, (S (S (tick w))). simpl.
            repeat split; try assumption; lia.
          - eapply Forall2_impl; [exact HF|].
            intros e evs Hm. eapply reopened_and_marked_earlier; [| |  |exact Hm].
            + reflexivity.
            + exact Hn1.
            + simpl. lia. }
        split; [exact Hl|]. split; [by rewrite Hn|]. split; [exact Hc|].
        split; [lia|]. split.
        { intros a' Hnot. rewrite fmap_cons in Hnot. simpl in Hnot.
          apply not_elem_of_cons in Hnot as [Hne Hnot].
          rewrite (Hfr _ Hnot). apply Hw1. congruence. }
        split.
        { intros Hnd n a' Hin. rewrite fmap_cons in Hnd. simpl in Hnd.
          apply NoDup_cons in Hnd as [Hfresh Hnd].
          apply elem_of_cons in Hin as [Heq | Hin].
          - inversion Heq; subst n a'. exists fw, (S (tick w)).
            split; [exact Hw|]. split; [lia|].
            rewrite (Hfr _ Hfresh). simpl.
            apply list_lookup_insert_eq. by eapply lookup_lt_Some.
          - destruct (Hre Hnd _ _ Hin) as (fw1 & k & Hfw1 & Hk & Hfin).
            assert (Hne : a' ≠ a).
            { intros ->. apply Hfresh. apply list_elem_of_fmap.
              exists (n, Addr a). split; [reflexivity|].
              unfold visited in *. rewrite filter_app. apply elem_of_app. by left. }
            rewrite (Hw1 _ Hne) in Hfw1.
            exists fw1, k. split; [exact Hfw1|]. split; [simpl in Hk; lia|exact Hfin]. }
        destruct r as [|e].
        -- destruct Hr as [-> ->]. split; [reflexivity|].
           simpl. by rewrite <- !app_assoc.
        -- destruct Hr as (n' & a' & fw' & post' & -> & Hp' & Hw' & Htr & Hcl).
           destruct (Name_lookup _ _ _ _ Hn1 Hw') as (fw0 & Hfw0 & Hname).
           exists n', a', fw0, post'. rewrite Hname.
           split; [reflexivity|]. split; [exact Hp'|]. split; [exact Hfw0|].
           split; [rewrite Htr; simpl; by rewrite <- !app_assoc|].
           intros Hnot. rewrite fmap_cons in Hnot.
           apply not_elem_of_cons in Hnot as [_ Hnot]. by apply Hcl.
Qed.

Lemma live_entry_visit_ok (x : LogHandleMap) (w : World) (e : string * ptr)
      (name : string) (a : nat) (fw : FileWriter) (b : nat) (lg : Logger) :
  live_entry x w e → live_entry x (visit_ok name a fw b lg w) e.
Proof.
  intros (a' & b' & Ha & Hw & Hb & Hl). exists a', b'.
  repeat split; try assumption. simpl.
  by apply list_lookup_insert_is_Some.
Qed.


(** *** Reading a trace *)

Lemma aborts_app (t1 t2 : list Event) : aborts (t1 ++ t2) = aborts t1 ++ aborts t2.
Proof. apply omap_app. Qed.

Lemma records_app (t1 t2 : list Event) : records (t1 ++ t2) = records t1 ++ records t2.
Proof. apply omap_app. Qed.

Lemma opens_app (t1 t2 : list Event) : opens (t1 ++ t2) = opens t1 ++ opens t2.
Proof. apply omap_app. Qed.

(** The chunks of the entries a pass reopened hold no call of
    [abortFunc], one record each, and one successful open each. *)
Lemma chunks_read (x : LogHandleMap) (w w' : World)
      (es : list (string * ptr)) (chunks : list (list Event)) :
  Forall2 (reopened_and_marked x w w') es chunks →
  aborts (concat chunks) = [] ∧
  length (records (concat chunks)) = length es ∧
  Forall (λ rec, rec.1.2 = InfoLevel) (records (concat chunks)) ∧
  Forall (λ o, o.2 = None) (opens (concat chunks)) ∧
  length (opens (concat chunks)) = length es.
Proof.
  induction 1 as [|e evs es chunks Hm _ IH]; [by repeat split; constructor|].
  destruct Hm as (a & fw & b & lg & k & _ & _ & _ & _ & _ & ->).
  destruct IH as (IHa & IHr & IHi & IHo & IHn).
  simpl. repeat split.
  - exact IHa.
  - by rewrite IHr.
  - by constructor.
  - by constructor.
  - by rewrite IHn.
Qed.

Lemma visited_subseteq (ignorePrefix : string) (l : list (string * ptr)) :
  visited ignorePrefix l ⊆ l.
Proof. intros e He. unfold visited in He. by apply list_elem_of_filter in He as [_ ?]. Qed.

(** ** The rotation pass *)

(** C1.  A rotation pass in which the reopen of a writer fails with [e]
    (the pass is left through [break]): the range splits into the
    entries before the failing one, the failing entry, which is not
    skipped, and the entries not yet visited.  The trace of the pass is
    the chunks of the entries reopened before (a successful open, the
    marker, the level restored), then the one failed open and the one
    call of [abortFunc] with [e]: [abortFunc] is called exactly once, no
    file is opened a second time, no record is written for any other
    entry.  In the store every writer that is not the handle of a
    visited entry is as it was before the pass; so, when no two entries
    share a writer, the writers reopened before are open on a descriptor
    of this pass, the failing writer is closed, and the writer of every
    entry not yet visited is as it was. *)
Theorem Reopen_pass_aborted (ignorePrefix : string) (x : LogHandleMap)
        (order : list (string * ptr)) (w w' : World) (e : error) :
  Reopen_pass ignorePrefix x order w (Aborted e) w' →
  ∃ pre name a fw post chunks,
    order = pre ++ (name, Addr a) :: post ∧
    HasPrefix name ignorePrefix = false ∧
    writers w !! a = Some fw ∧
    Forall2 (reopened_and_marked x w w') (visited ignorePrefix pre) chunks ∧
    trace w' = trace w ++ concat chunks
                 ++ [EvOpenFile (Name fw) (Some e); EvAbort e] ∧
    aborts (trace w') = aborts (trace w) ++ [e] ∧
    opens (trace w') = opens (trace w) ++ opens (concat chunks)
                         ++ [(Name fw, Some e)] ∧
    Forall (λ o, o.2 = None) (opens (concat chunks)) ∧
    length (opens (concat chunks)) = length (visited ignorePrefix pre) ∧
    length (records (trace w')) =
      length (records (trace w)) + length (visited ignorePrefix pre) ∧
    loggers w' = loggers w ∧
    (∀ a', Addr a' ∉ (visited ignorePrefix (pre ++ [(name, Addr a)])).*2 →
           writers w' !! a' = writers w !! a') ∧
    (NoDup order.*2 →
     (∀ n a', (n, Addr a') ∈ visited ignorePrefix pre →
              ∃ fw' k, writers w !! a' = Some fw' ∧ tick w < k ≤ tick w' ∧
                       writers w' !! a' = Some (mkFileWriter (Name fw') (Some k))) ∧
     writers w' !! a = Some (mkFileWriter (Name fw) None) ∧
     (∀ n a', (n, Addr a') ∈ post → writers w' !! a' = writers w !! a')).
Proof.
  intros [_ Hrun].
  destruct (fileloop_sound _ _ _ _ _ _ Hrun)
    as (pre & post & chunks & -> & HF & Hl & _ & _ & _ & Hfr & Hre
        & name & a & fw & post' & -> & Hp & Hw & Htr & Hcl).
  destruct (chunks_read _ _ _ _ _ HF) as (Ha & Hr & _ & Ho & Hn).
  change (take 1 ((name, Addr a) :: post')) with [(name, Addr a)] in Hfr, Hre.
  exists pre, name, a, fw, post', chunks.
  split; [reflexivity|]. split; [exact Hp|]. split; [exact Hw|].
  split; [exact HF|]. split; [exact Htr|].
  split; [by rewrite Htr, !aborts_app, Ha|].
  split; [by rewrite Htr, !opens_app|].
  split; [exact Ho|]. split; [exact Hn|].
  split; [by rewrite Htr, !records_app, !length_app, Hr; simpl; lia|].
  split; [exact Hl|]. split; [exact Hfr|].
  intros Hnd.
  rewrite (cons_middle _ pre post'), app_assoc, fmap_app in Hnd.
  apply NoDup_app in Hnd as (Hnd & Hdisj & _).
  assert (Hsub : (visited ignorePrefix (pre ++ [(name, Addr a)])).*2
                   `sublist_of` (pre ++ [(name, Addr a)]).*2).
  { apply fmap_sublist. unfold visited. apply sublist_filter. }
  split; [apply Hre; by eapply sublist_NoDup|].
  split.
  - apply Hcl. intros Hin. rewrite fmap_app in Hnd.
    apply NoDup_app in Hnd as (_ & Hd & _). apply (Hd (Addr a)).
    + apply list_elem_of_fmap in Hin as (e0 & Heq & He0).
      apply list_elem_of_fmap. exists e0. split; [exact Heq|].
      by apply visited_subseteq in He0.
    + simpl. left.
  - intros n a' Hin. apply Hfr. intros Hvis.
    apply (Hdisj (Addr a')).
    + by eapply elem_of_sublist.
    + apply list_elem_of_fmap. by exists (n, Addr a').
Qed.











(** C9.  With the empty string as [ignorePrefix] every name has the
    prefix, so a pass skips every entry of the range, whatever the
    registry and the store: nothing is reopened, nothing is written, the
    world is left as it was; and so it is after any number of signals. *)
Theorem Reopen_empty_prefix_skips_all (x : LogHandleMap) (w : World)
        (received : list (list (string * ptr))) :
  (∀ name, HasPrefix name "" = true) ∧
  (∀ order, fileloop "" x order w = Ret Completed w) ∧
  Reopen "" x received w = Ret tt w.
Proof.
  split; [exact HasPrefix_empty|].
  assert (Hpass : ∀ order w0, fileloop "" x order w0 = Ret Completed w0).
  { intros order w0. apply fileloop_all_skipped.
    apply Forall_forall. intros e _. apply HasPrefix_empty. }
  split; [intros order; apply Hpass|].
  induction received as [|order rest IH]; simpl.
  - by destruct (signal x).
  - destruct (signal x); [reflexivity|].
    unfold mbind, M_bind, bind. by rewrite Hpass.
Qed.

(** ** Registration *)

Lemma Open_ok_inv (fname : string) (lvl : Level) (x x' : LogHandleMap)
      (w w' : World) :
  Open fname lvl x w = Ret (x', None) w' →
  os_OpenFile (S (S (tick w))) (logfile x fname) = None.
Proof.
  intros Hrun.
  destruct (os_OpenFile (S (S (tick w))) (logfile x fname)) as [e|] eqn:He;
    [|reflexivity].
  rewrite (Open_failure _ lvl _ _ _ He) in Hrun. discriminate Hrun.
Qed.

(** C3.  When [Open fname lvl] returns without error, [GetFileHandle]
    and [GetLogger] of [fname] return the addresses of the writer and
    the logger the call has just allocated (they were no objects of the
    store before); the writer is open on [fname.log] under the base
    path, the logger writes to it and its level is [lvl]. *)
Theorem Open_then_Get (fname : string) (lvl : Level) (x x' : LogHandleMap)
        (w w' : World) :
  Open fname lvl x w = Ret (x', None) w' →
  ∃ a b fw lg,
    GetFileHandle fname x' = Addr a ∧
    GetLogger fname x' = Addr b ∧
    writers w !! a = None ∧ writers w' !! a = Some fw ∧
    loggers w !! b = None ∧ loggers w' !! b = Some lg ∧
    Name fw = logfile x fname ∧ is_Some (f fw) ∧
    Out lg = FileSink (Addr a) ∧
    Level_ lg = lvl.
Proof.
  intros Hrun. pose proof (Open_ok_inv _ _ _ _ _ _ Hrun) as He.
  rewrite (Open_success _ lvl _ _ He) in Hrun. inversion Hrun; subst; clear Hrun.
  eexists (length (writers w)), (length (loggers w)), _, _.
  unfold GetFileHandle, GetLogger, Add. simpl.
  rewrite !index_insert_eq, !lookup_snoc.
  repeat split; try reflexivity.
  - by apply lookup_ge_None_2.
  - by apply lookup_ge_None_2.
  - simpl. eauto.
Qed.

(** C6.  [Del] takes the name out of [hmap] and leaves [lmap] alone:
    after [Del key], [GetFileHandle key] is nil and [GetLogger] answers
    for every name what it answered before.  So for a name registered
    by [Add] the logger handed to [Add] is still returned, and for a
    name registered by [Open] the logger [Open] created. *)
Theorem Del_keeps_logger (key : string) (x : LogHandleMap) :
  GetFileHandle key (Del key x) = nil_ptr ∧
  hmap (Del key x) = delete key (hmap x) ∧
  lmap (Del key x) = lmap x ∧
  (∀ k, GetLogger k (Del key x) = GetLogger k x) ∧
  (∀ fh lg,
      GetFileHandle key (Del key (Add key fh lg x)) = nil_ptr ∧
      GetLogger key (Del key (Add key fh lg x)) = lg) ∧
  (∀ lvl w x' w',
      Open key lvl x w = Ret (x', None) w' →
      GetFileHandle key (Del key x') = nil_ptr ∧
      GetLogger key (Del key x') = Addr (length (loggers w))).
Proof.
  unfold GetFileHandle, GetLogger, Del, Add. simpl.
  split; [apply index_delete_eq|]. split; [reflexivity|].
  split; [reflexivity|]. split; [reflexivity|]. split.
  - intros fh lg. split; [apply index_delete_eq | apply index_insert_eq].
  - intros lvl w x' w' Hrun. pose proof (Open_ok_inv _ _ _ _ _ _ Hrun) as He.
    rewrite (Open_success _ lvl _ _ He) in Hrun. inversion Hrun; subst.
    simpl. split; [apply index_delete_eq | apply index_insert_eq].
Qed.

(** ** The two phases *)

(** C4.  [Setup] on a configured map, with any base path: it returns
    the channel stored in the map and does nothing else; the map (both
    sub-maps, the base path, the flag) and the world are unchanged.  The
    channel stored is the one the call that configured the map returned,
    be it [New] or an earlier [Setup]. *)
Theorem Setup_configured_noop (basepath : string) (x : LogHandleMap) (w : World) :
  configured x = true →
  Setup basepath x w = Ret (x, signal x) w ∧
  (∀ p0 w0 c, New p0 w0 = Ret (x, c) w → c = signal x) ∧
  (∀ p0 x0 w0 c, Setup p0 x0 w0 = Ret (x, c) w → c = signal x).
Proof.
  intros Hc. split; [unfold Setup; by rewrite Hc|]. split.
  - intros p0 w0 c HN. rewrite New_eval in HN. by inversion HN.
  - intros p0 x0 w0 c HS. unfold Setup in HS.
    destruct (configured x0); [by inversion HS|].
    unfold Logger_Exit, load_logger in HS. munfold.
    destruct (index (lmap x0) "__early") as [|a]; [discriminate HS|].
    simpl in HS. destruct (loggers w0 !! a) as [lg|]; [|discriminate HS].
    simpl in HS. destruct (ExitFunc lg); [discriminate HS|].
    by inversion HS.
Qed.

(** The early calls on a map whose sentinel logger is an object of the
    store. *)
Lemma EarlyPrintf_sentinel (format : string) (args : list any)
      (x : LogHandleMap) (w : World) (a : nat) (lg : Logger) :
  configured x = false →
  index (lmap x) "__early" = Addr a →
  loggers w !! a = Some lg →
  EarlyPrintf format args x w =
  Ret tt (if IsLevelEnabled lg InfoLevel
          then logged [EvWrite (Out lg) InfoLevel (fmt_Sprintf format args)] w
          else w).
Proof.
  intros Hc Hi Hl. unfold EarlyPrintf, Logger_Printf, Logger_Log, load_logger.
  rewrite Hc, Hi. munfold. simpl. rewrite Hl. simpl.
  by destruct (IsLevelEnabled lg InfoLevel).
Qed.

Lemma EarlyFatal_sentinel (args : list any)
      (x : LogHandleMap) (w : World) (a : nat) (lg : Logger) :
  configured x = false →
  index (lmap x) "__early" = Addr a →
  loggers w !! a = Some lg →
  EarlyFatal args x w =
  let w1 := if IsLevelEnabled lg FatalLevel
            then logged [EvWrite (Out lg) FatalLevel (fmt_Sprint args)] w
            else w in
  match ExitFunc lg with
  | os_Exit => Exits 1 w1
  | func_noop => Ret tt w1
  end.
Proof.
  intros Hc Hi Hl.
  unfold EarlyFatal, Logger_Fatal, Logger_Exit, Logger_Log, load_logger.
  rewrite Hc, Hi. munfold. simpl. rewrite Hl. simpl.
  destruct (IsLevelEnabled lg FatalLevel); simpl; rewrite Hl; simpl;
    by destruct (ExitFunc lg).
Qed.

Lemma Init_sentinel (w : World) :
  Init w = Ret (Init_map w) (Init_world w) ∧
  index (lmap (Init_map w)) "__early" = Addr (length (loggers w)) ∧
  loggers (Init_world w) !! length (loggers w) =
    Some (mkLogger reopen_Stderr (mkTextFormatter true true) DebugLevel func_noop).
Proof.
  split; [apply Init_eval|]. split; [apply index_insert_eq|].
  simpl. apply lookup_snoc.
Qed.

Lemma Early_calls_configured (format : string) (args fargs : list any)
      (x : LogHandleMap) (w : World) :
  configured x = true →
  EarlyPrintf format args x w = Ret tt w ∧ EarlyFatal fargs x w = Ret tt w.
Proof. intros Hc. unfold EarlyPrintf, EarlyFatal. by rewrite Hc. Qed.

Lemma Early_calls_after_Init (format : string) (args fargs : list any) (w : World) :
  EarlyPrintf format args (Init_map w) (Init_world w) =
    Ret tt (logged [EvWrite reopen_Stderr InfoLevel (fmt_Sprintf format args)]
                   (Init_world w)) ∧
  EarlyFatal fargs (Init_map w) (Init_world w) =
    Ret tt (logged [EvWrite reopen_Stderr FatalLevel (fmt_Sprint fargs)]
                   (Init_world w)).
Proof.
  destruct (Init_sentinel w) as (_ & Hi & Hl). split.
  - by rewrite (EarlyPrintf_sentinel format args (Init_map w) _ _ _ eq_refl Hi Hl).
  - by rewrite (EarlyFatal_sentinel fargs (Init_map w) _ _ _ eq_refl Hi Hl).
Qed.

(** C5.  On a configured map [EarlyPrintf] and [EarlyFatal] return at
    once: the world, its trace included, is unchanged.  On a map that
    is not configured they are the calls [Printf] and [Fatal] on the
    logger registered as [__early].  Over the life of a map: a map made
    by [New] is configured; on the map made by [Init] both calls write
    their message to the sentinel's standard-error output, and after
    [Setup] of that map both are without effect. *)
Theorem Early_calls_iff_unconfigured (format : string) (args fargs : list any)
        (x : LogHandleMap) (w : World) :
  (configured x = true →
     EarlyPrintf format args x w = Ret tt w ∧
     EarlyFatal fargs x w = Ret tt w) ∧
  (configured x = false →
     EarlyPrintf format args x w =
       Logger_Printf (GetLogger "__early" x) format args w ∧
     EarlyFatal fargs x w = Logger_Fatal (GetLogger "__early" x) fargs w) ∧
  (∀ basepath, ∃ x1 c w1,
     New basepath w = Ret (x1, c) w1 ∧
     EarlyPrintf format args x1 w1 = Ret tt w1 ∧
     EarlyFatal fargs x1 w1 = Ret tt w1) ∧
  (∃ x0 w0,
     Init w = Ret x0 w0 ∧ configured x0 = false ∧
     EarlyPrintf format args x0 w0 =
       Ret tt (logged [EvWrite reopen_Stderr InfoLevel (fmt_Sprintf format args)] w0) ∧
     EarlyFatal fargs x0 w0 =
       Ret tt (logged [EvWrite reopen_Stderr FatalLevel (fmt_Sprint fargs)] w0) ∧
     ∀ basepath, ∃ x1 c w1,
       Setup basepath x0 w0 = Ret (x1, c) w1 ∧ configured x1 = true ∧
       EarlyPrintf format args x1 w1 = Ret tt w1 ∧
       EarlyFatal fargs x1 w1 = Ret tt w1).
Proof.
  split; [apply Early_calls_configured|]. split.
  { intros Hc. unfold EarlyPrintf, EarlyFatal, GetLogger. by rewrite Hc. }
  split.
  { intros basepath. rewrite New_eval. do 3 eexists. split; [reflexivity|].
    by apply Early_calls_configured. }
  destruct (Init_sentinel w) as (HI & Hi & Hl).
  destruct (Early_calls_after_Init format args fargs w) as [HP HF].
  exists (Init_map w), (Init_world w).
  split; [exact HI|]. split; [reflexivity|]. split; [exact HP|]. split; [exact HF|].
  intros basepath.
  rewrite (Setup_unconfigured basepath (Init_map w) _ _ _ eq_refl Hi Hl eq_refl).
  do 3 eexists. split; [reflexivity|]. split; [reflexivity|].
  by apply Early_calls_configured.
Qed.

(** C10.  [EarlyFatal] on the map [Init] has just made: the sentinel's
    [ExitFunc] is the empty function, so the call writes the message at
    [FatalLevel] to the sentinel's output and returns; the process is
    not ended, and nothing but the trace has changed. *)
Theorem EarlyFatal_after_Init_returns (args : list any) (w : World) :
  ∃ x w1 a lg,
    Init w = Ret x w1 ∧ configured x = false ∧
    GetLogger "__early" x = Addr a ∧ loggers w1 !! a = Some lg ∧
    ExitFunc lg = func_noop ∧
    EarlyFatal args x w1 =
      Ret tt (logged [EvWrite (Out lg) FatalLevel (fmt_Sprint args)] w1).
Proof.
  destruct (Init_sentinel w) as (HI & Hi & Hl).
  destruct (Early_calls_after_Init "" [] args w) as [_ HF].
  exists (Init_map w), (Init_world w), (length (loggers w)),
    (mkLogger reopen_Stderr (mkTextFormatter true true) DebugLevel func_noop).
  repeat split; assumption.
Qed.

(** With the exit function of [logrus.New], [os.Exit], the same call
    ends the process. *)
Lemma EarlyFatal_os_Exit (args : list any) (x : LogHandleMap) (w : World)
      (a : nat) (lg : Logger) :
  configured x = false →
  index (lmap x) "__early" = Addr a →
  loggers w !! a = Some lg →
  ExitFunc lg = os_Exit →
  ∃ w1, EarlyFatal args x w = Exits 1 w1.
Proof.
  intros Hc Hi Hl He. rewrite (EarlyFatal_sentinel _ _ _ _ _ Hc Hi Hl), He.
  simpl. eauto.
Qed.

(** C7, as the code has it.  [Init] returns a map that is not
    configured, with an empty [hmap] (no file writer) and one logger,
    registered as [__early], that writes to [reopen.Stderr] at
    [DebugLevel]: every severity but [TraceLevel] passes its filter. *)
Theorem Init_sentinel_at_DebugLevel (w : World) :
  ∃ x w' a lg,
    Init w = Ret x w' ∧ configured x = false ∧
    hmap x = ∅ ∧ lmap x = {["__early" := Addr a]} ∧
    loggers w' !! a = Some lg ∧
    Out lg = reopen_Stderr ∧
    Level_ lg = DebugLevel ∧
    (∀ l, IsLevelEnabled lg l = true ↔ l ≠ TraceLevel).
Proof.
  destruct (Init_sentinel w) as (HI & _ & Hl).
  exists (Init_map w), (Init_world w), (length (loggers w)),
    (mkLogger reopen_Stderr (mkTextFormatter true true) DebugLevel func_noop).
  split; [exact HI|]. split; [reflexivity|]. split; [reflexivity|].
  split; [apply insert_empty|]. split; [exact Hl|].
  split; [reflexivity|]. split; [reflexivity|].
  intros l. destruct l; unfold IsLevelEnabled; simpl; split; intros H;
    first [reflexivity | discriminate H | by destruct H].
Qed.

Lemma precedes_last_two (t : list Event) (e0 e1 e2 e3 : Event) :
  precedes e2 e3 (t ++ [e0; e1; e2; e3]).
Proof.
  exists (length t + 2), (length t + 3).
  split; [lia|]. split.
  - rewrite lookup_app_r by lia. by replace (length t + 2 - length t) with 2 by lia.
  - rewrite lookup_app_r by lia. by replace (length t + 3 - length t) with 3 by lia.
Qed.

(** C8, as the code has it.  In a call of [Open] that succeeds, the
    "Started logfile" marker is written first, while the new logger
    still has the level of [logrus.New], and the logger is set to [lvl]
    after it: whatever [lvl] is, the marker is the one record of the
    call, at [InfoLevel], with the time read just before. *)
Theorem Open_marker_then_level (fname : string) (lvl : Level)
        (x x' : LogHandleMap) (w w' : World) :
  Open fname lvl x w = Ret (x', None) w' →
  ∃ a b oldpath,
    GetFileHandle fname x' = Addr a ∧
    GetLogger fname x' = Addr b ∧
    trace w' = trace w ++
                 [EvRename (logfile x fname) oldpath;
                  EvOpenFile (logfile x fname) None;
                  EvWrite (FileSink (Addr a)) InfoLevel
                          (started_marker fname (tick w'));
                  EvSetLevel b lvl] ∧
    precedes (EvWrite (FileSink (Addr a)) InfoLevel (started_marker fname (tick w')))
             (EvSetLevel b lvl) (trace w') ∧
    records (trace w') =
      records (trace w) ++
        [(FileSink (Addr a), InfoLevel, started_marker fname (tick w'))].
Proof.
  intros Hrun. pose proof (Open_ok_inv _ _ _ _ _ _ Hrun) as He.
  rewrite (Open_success _ lvl _ _ He) in Hrun. inversion Hrun; subst; clear Hrun.
  eexists (length (writers w)), (length (loggers w)), _.
  unfold GetFileHandle, GetLogger, Add. simpl. rewrite !index_insert_eq.
  split; [reflexivity|]. split; [reflexivity|]. split; [reflexivity|].
  split; [apply precedes_last_two|].
  by rewrite records_app.
Qed.

(** ** More on registration *)

Lemma index_insert_ne (m : gmap string ptr) (k k' : string) (p : ptr) :
  k ≠ k' → index (<[k := p]> m) k' = index m k'.
Proof. intros Hne. unfold index. by rewrite lookup_insert_ne. Qed.

(** X1.  When the file of the stream cannot be opened, [Open] returns
    that error and registers nothing: the map it returns is the map it
    was given, no logger and no writer is allocated, no record is
    written.  The rename of an older file was attempted all the same,
    before the open. *)
Theorem Open_error_registers_nothing (fname : string) (lvl : Level)
        (x x' : LogHandleMap) (w w' : World) (e : error) :
  Open fname lvl x w = Ret (x', Some e) w' →
  x' = x ∧
  os_OpenFile (S (S (tick w))) (logfile x fname) = Some e ∧
  loggers w' = loggers w ∧ writers w' = writers w ∧ chans w' = chans w ∧
  trace w' = trace w ++
               [EvRename (logfile x fname)
                         (filepath_Join (bp x)
                            (fname +:+ ".log." +:+ time_Now (S (tick w))));
                EvOpenFile (logfile x fname) (Some e)] ∧
  records (trace w') = records (trace w).
Proof.
  intros Hrun.
  destruct (os_OpenFile (S (S (tick w))) (logfile x fname)) as [e0|] eqn:He.
  - rewrite (Open_failure _ lvl _ _ _ He) in Hrun. inversion Hrun; subst.
    simpl. repeat split; try reflexivity.
    rewrite records_app. simpl. by rewrite app_nil_r.
  - rewrite (Open_success _ lvl _ _ He) in Hrun. discriminate Hrun.
Qed.

(** X2.  Whatever [Open] returns, it leaves the rest alone: the base
    path, the channel and the flag of the map, what [GetFileHandle] and
    [GetLogger] answer for every other name, every logger and every
    writer that was in the store (a writer registered before under the
    same name included: it is not closed), and the channels. *)
Theorem Open_keeps_the_rest (fname : string) (lvl : Level)
        (x x' : LogHandleMap) (w w' : World) (err : option error) :
  Open fname lvl x w = Ret (x', err) w' →
  bp x' = bp x ∧ signal x' = signal x ∧ configured x' = configured x ∧
  (∀ k, k ≠ fname →
        GetFileHandle k x' = GetFileHandle k x ∧ GetLogger k x' = GetLogger k x) ∧
  (∀ a lg, loggers w !! a = Some lg → loggers w' !! a = Some lg) ∧
  (∀ a fw, writers w !! a = Some fw → writers w' !! a = Some fw) ∧
  chans w' = chans w ∧
  aborts (trace w') = aborts (trace w).
Proof.
  intros Hrun.
  destruct (os_OpenFile (S (S (tick w))) (logfile x fname)) as [e0|] eqn:He.
  - rewrite (Open_failure _ lvl _ _ _ He) in Hrun. inversion Hrun; subst.
    simpl. repeat split; try done.
    rewrite aborts_app. simpl. by rewrite app_nil_r.
  - rewrite (Open_success _ lvl _ _ He) in Hrun. inversion Hrun; subst.
    unfold GetFileHandle, GetLogger, Add. simpl.
    split; [reflexivity|]. split; [reflexivity|]. split; [reflexivity|].
    split.
    { intros k Hne. split; apply index_insert_ne; congruence. }
    split; [intros a lg Hl; by apply lookup_app_l_Some|].
    split; [intros a fw Hw; by apply lookup_app_l_Some|].
    split; [reflexivity|].
    rewrite aborts_app. simpl. by rewrite app_nil_r.
Qed.

(** X3.  [Open] twice under one name, both times with success: the name
    is registered once, with the writer and the logger of the second
    call, which are not those of the first.  The writer of the first
    call stays in the store, open on the same path: nothing closes it.
    Its logger stays too, at the level of the first call. *)
Theorem Open_twice_replaces (fname : string) (l1 l2 : Level)
        (x x1 x2 : LogHandleMap) (w w1 w2 : World) :
  Open fname l1 x w = Ret (x1, None) w1 →
  Open fname l2 x1 w1 = Ret (x2, None) w2 →
  hmap x2 = <[fname := Addr (S (length (writers w)))]> (hmap x) ∧
  lmap x2 = <[fname := Addr (S (length (loggers w)))]> (lmap x) ∧
  GetFileHandle fname x1 = Addr (length (writers w)) ∧
  GetFileHandle fname x2 = Addr (S (length (writers w))) ∧
  GetLogger fname x1 = Addr (length (loggers w)) ∧
  GetLogger fname x2 = Addr (S (length (loggers w))) ∧
  writers w2 !! length (writers w)
    = Some (mkFileWriter (logfile x fname) (Some (S (S (tick w))))) ∧
  writers w2 !! S (length (writers w))
    = Some (mkFileWriter (logfile x fname) (Some (S (S (tick w1))))) ∧
  (∃ lg1 lg2, loggers w2 !! length (loggers w) = Some lg1 ∧ Level_ lg1 = l1 ∧
              loggers w2 !! S (length (loggers w)) = Some lg2 ∧ Level_ lg2 = l2).
Proof.
  intros H1 H2.
  pose proof (Open_ok_inv _ _ _ _ _ _ H1) as He1.
  rewrite (Open_success _ l1 _ _ He1) in H1. inversion H1; subst; clear H1.
  pose proof (Open_ok_inv _ _ _ _ _ _ H2) as He2.
  rewrite (Open_success _ l2 _ _ He2) in H2. inversion H2; subst; clear H2.
  unfold GetFileHandle, GetLogger, Add, logfile. simpl.
  rewrite !length_app, !insert_insert_eq, !index_insert_eq. simpl.
  replace (length (writers w) + 1) with (S (length (writers w))) by lia.
  replace (length (loggers w) + 1) with (S (length (loggers w))) by lia.
  split; [reflexivity|]. split; [reflexivity|]. split; [reflexivity|].
  split; [reflexivity|]. split; [reflexivity|]. split; [reflexivity|].
  split.
  { rewrite <- app_assoc. by apply list_lookup_middle. }
  split.
  { apply list_lookup_middle. rewrite length_app. simpl. lia. }
  eexists _, _. split.
  { rewrite <- app_assoc. by apply list_lookup_middle. }
  split; [reflexivity|].
  split; [apply list_lookup_middle; rewrite length_app; simpl; lia | reflexivity].
Qed.

(** X4.  [Add] under a name registered before replaces both pointers;
    [Add] under different names can be done in either order; after
    [Add key fh lg] the two lookups of [key] return [fh] and [lg] and the
    lookups of every other name are as before. *)
Theorem Add_overwrites_and_commutes (k k' : string) (fh fh' lg lg' : ptr)
        (x : LogHandleMap) :
  Add k fh' lg' (Add k fh lg x) = Add k fh' lg' x ∧
  GetFileHandle k (Add k fh lg x) = fh ∧
  GetLogger k (Add k fh lg x) = lg ∧
  (k ≠ k' →
   Add k fh lg (Add k' fh' lg' x) = Add k' fh' lg' (Add k fh lg x) ∧
   GetFileHandle k' (Add k fh lg x) = GetFileHandle k' x ∧
   GetLogger k' (Add k fh lg x) = GetLogger k' x).
Proof.
  unfold Add, GetFileHandle, GetLogger. simpl.
  split; [by rewrite !insert_insert_eq|].
  split; [apply index_insert_eq|]. split; [apply index_insert_eq|].
  intros Hne. split.
  - f_equal; by apply insert_insert_ne.
  - split; by apply index_insert_ne.
Qed.

(** X5.  [Del] of a name that has no handle changes nothing, [Del] twice
    is [Del] once, [Del] undoes in [hmap] an [Add] under a new name, and
    it takes exactly that name out of the names a pass ranges over.
    [Del] and [Add] under different names can be done in either order. *)
Theorem Del_algebra (key : string) (x : LogHandleMap) :
  (hmap x !! key = None → Del key x = x) ∧
  Del key (Del key x) = Del key x ∧
  dom (rangeLock (Del key x)) = dom (rangeLock x) ∖ {[key]} ∧
  (∀ fh lg, hmap x !! key = None → hmap (Del key (Add key fh lg x)) = hmap x) ∧
  (∀ k fh lg, k ≠ key → Del key (Add k fh lg x) = Add k fh lg (Del key x)).
Proof.
  unfold Del, Add, rangeLock. simpl. split.
  { intros Hnone. destruct x as [h l b s c]. simpl in *. f_equal. by apply delete_id. }
  split; [by rewrite delete_delete_eq|].
  split; [apply dom_delete_L|]. split.
  - intros fh lg Hnone. by apply delete_insert_id.
  - intros k fh lg Hne. f_equal. apply delete_insert_ne. congruence.
Qed.

(** ** More on the two phases *)

(** X6.  [Init] and then [Setup]: [Init] makes no channel and registers
    for no signal; [Setup] makes the channel, registers it and returns
    it, sets the base path and the flag, and takes the sentinel out of
    [lmap], which is then empty like [hmap].  The sentinel logger itself
    stays in the store as it was, and the one record of the two calls is
    the "Started early logging" line of [Init]. *)
Theorem Init_then_Setup (basepath : string) (w : World) :
  ∃ x0 w0 x1 w1,
    Init w = Ret x0 w0 ∧
    chans w0 = chans w ∧ signal x0 = nil_chan ∧
    Setup basepath x0 w0 = Ret (x1, Chan (chans w)) w1 ∧
    configured x1 = true ∧ bp x1 = basepath ∧ signal x1 = Chan (chans w) ∧
    hmap x1 = ∅ ∧ lmap x1 = ∅ ∧
    GetLogger "__early" x1 = nil_ptr ∧
    loggers w1 = loggers w0 ∧
    chans w1 = S (chans w) ∧
    trace w1 = trace w0 ++ [EvNotify (chans w)] ∧
    records (trace w1) =
      records (trace w) ++
        [(reopen_Stderr, InfoLevel,
          fmt_Sprintf "Started early logging at %s"
                      [any_string (time_Now (S (tick w)))])].
Proof.
  destruct (Init_sentinel w) as (HI & Hi & Hl).
  exists (Init_map w), (Init_world w). do 2 eexists.
  split; [exact HI|]. split; [reflexivity|]. split; [reflexivity|].
  split; [exact (Setup_unconfigured basepath (Init_map w) _ _ _ eq_refl Hi Hl eq_refl)|].
  simpl. split; [reflexivity|]. split; [reflexivity|]. split; [reflexivity|].
  split; [reflexivity|].
  assert (Hempty : delete "__early" (<["__early" := Addr (length (loggers w))]> ∅)
                   = (∅ : gmap string ptr))
    by (apply delete_insert_id, lookup_empty).
  split; [exact Hempty|].
  split; [unfold GetLogger; simpl; by rewrite Hempty|].
  split; [reflexivity|]. split; [reflexivity|]. split; [reflexivity|].
  rewrite !records_app. simpl. by rewrite app_nil_r.
Qed.

(** X7.  The name [__early] used for a stream before [Setup]: [Open]
    puts its own logger, whose exit function is [os.Exit], in the place
    of the sentinel.  [Setup] then ends the process with code 0 at its
    call of [Exit] on that logger, and [EarlyFatal] ends it with code 1
    where on the sentinel it returns. *)
Theorem Open_early_then_Setup_exits (lvl : Level) (basepath : string)
        (args : list any) (w : World) :
  os_OpenFile (S (S (S (tick w)))) (filepath_Join "" ("__early" +:+ ".log")) = None →
  ∃ x0 w0 x1 w1 w2,
    Init w = Ret x0 w0 ∧
    Open "__early" lvl x0 w0 = Ret (x1, None) w1 ∧
    configured x1 = false ∧
    GetLogger "__early" x1 ≠ GetLogger "__early" x0 ∧
    Setup basepath x1 w1 = Exits 0 w1 ∧
    EarlyFatal args x1 w1 = Exits 1 w2.
Proof.
  intros He.
  destruct (Init_sentinel w) as (HI & Hi & Hl).
  assert (Hopen : os_OpenFile (S (S (tick (Init_world w))))
                              (logfile (Init_map w) "__early") = None) by exact He.
  pose proof (Open_success "__early" lvl (Init_map w) (Init_world w) Hopen) as HO.
  exists (Init_map w), (Init_world w). do 3 eexists.
  split; [exact HI|]. split; [exact HO|]. split; [reflexivity|].
  assert (Hnew : index (lmap (Add "__early" (Addr (length (writers (Init_world w))))
                                  (Addr (length (loggers (Init_world w)))) (Init_map w)))
                       "__early" = Addr (length (loggers (Init_world w))))
    by apply index_insert_eq.
  split.
  { unfold GetLogger. rewrite Hnew, Hi. simpl. rewrite length_app. simpl.
    intros Heq. inversion Heq. lia. }
  split.
  - unfold Setup, Logger_Exit, load_logger. rewrite Hnew. simpl.
    munfold. simpl. rewrite lookup_snoc. reflexivity.
  - erewrite EarlyFatal_sentinel; [|reflexivity|exact Hnew|simpl; apply lookup_snoc].
    simpl. reflexivity.
Qed.

(** X14.  The early calls go through the filter of the sentinel.  After
    the level of the sentinel of [Init] was set to [lvl], [EarlyPrintf]
    writes its record only if [lvl] is [InfoLevel] or above, and
    [EarlyFatal] only if [lvl] is [FatalLevel] or above; both return. *)
Theorem Early_calls_respect_level (lvl : Level) (format : string)
        (args fargs : list any) (w : World) :
  ∃ x w0 w1,
    Init w = Ret x w0 ∧
    Logger_SetLevel (GetLogger "__early" x) lvl w0 = Ret tt w1 ∧
    EarlyPrintf format args x w1 =
      Ret tt (if (rank InfoLevel <=? rank lvl)%nat
              then logged [EvWrite reopen_Stderr InfoLevel (fmt_Sprintf format args)] w1
              else w1) ∧
    EarlyFatal fargs x w1 =
      Ret tt (if (rank FatalLevel <=? rank lvl)%nat
              then logged [EvWrite reopen_Stderr FatalLevel (fmt_Sprint fargs)] w1
              else w1).
Proof.
  destruct (Init_sentinel w) as (HI & Hi & Hl).
  exists (Init_map w), (Init_world w). eexists.
  split; [exact HI|]. split.
  { unfold GetLogger, Logger_SetLevel, load_logger, store_logger. rewrite Hi.
    munfold. simpl. rewrite lookup_snoc. simpl. rewrite insert_snoc. reflexivity. }
  split.
  - erewrite EarlyPrintf_sentinel; [|reflexivity|exact Hi|simpl; apply lookup_snoc].
    reflexivity.
  - erewrite EarlyFatal_sentinel; [|reflexivity|exact Hi|simpl; apply lookup_snoc].
    reflexivity.
Qed.

(** ** More on the rotation pass *)

Lemma HasPrefix_cons (c d : ascii) (s p : string) :
  HasPrefix (String d s) (String c p) = Ascii.eqb d c && HasPrefix s p.
Proof.
  unfold HasPrefix. simpl.
  destruct (String.length p <=? String.length s)%nat, (Ascii.eqb d c),
    (String.eqb (String.substring 0 (String.length p) s) p); reflexivity.
Qed.

Lemma HasPrefix_append (s p : string) :
  HasPrefix s p = true ↔ ∃ t, s = p +:+ t.
Proof.
  revert s. induction p as [|c p IH]; intros s.
  - split; [intros _; by exists s | intros _; apply HasPrefix_empty].
  - destruct s as [|d s].
    + split; [discriminate | intros [t Ht]; discriminate Ht].
    + rewrite HasPrefix_cons, andb_true_iff, Ascii.eqb_eq, IH. split.
      * intros [-> [t ->]]. by exists t.
      * intros [t Ht]. simpl in Ht. inversion Ht; subst. split; [reflexivity | by exists t].
Qed.

Lemma bind_ext {A B} (m : M A) (k k' : A → M B) (w : World) :
  (∀ a w', k a w' = k' a w') → bind m k w = bind m k' w.
Proof. intros Hk. unfold bind. destruct (m w); [apply Hk | reflexivity | reflexivity]. Qed.

(** X8.  A pass skips an entry exactly when its name is [ignorePrefix]
    followed by some rest, the empty one included, and the entries it
    skips count for nothing: the pass over a range is the pass over what
    is left of the range without them. *)
Theorem fileloop_skips_prefixed (ignorePrefix : string) (x : LogHandleMap)
        (order : list (string * ptr)) (w : World) :
  (∀ name, HasPrefix name ignorePrefix = true ↔ ∃ rest, name = ignorePrefix +:+ rest) ∧
  fileloop ignorePrefix x order w
  = fileloop ignorePrefix x (visited ignorePrefix order) w.
Proof.
  split; [intros name; apply HasPrefix_append|].
  revert w. induction order as [|[name h] rest IH]; intros w; [reflexivity|].
  destruct (HasPrefix name ignorePrefix) eqn:Hp.
  - rewrite fileloop_skip by exact Hp. rewrite IH.
    unfold visited. by rewrite filter_cons_False by (simpl; by rewrite Hp).
  - unfold visited. rewrite filter_cons_True by (simpl; exact Hp).
    fold (visited ignorePrefix rest). simpl. rewrite Hp.
    unfold mbind, M_bind. apply bind_ext. intros [e|] w1; [reflexivity|].
    repeat (apply bind_ext; intros ? ?). apply IH.
Qed.

Lemma fileloop_all_open (ignorePrefix : string) (x : LogHandleMap)
      (order : list (string * ptr)) (w : World) :
  (∀ k path, os_OpenFile k path = None) →
  Forall (live_entry x w) order →
  ∃ w', fileloop ignorePrefix x order w = Ret Completed w' ∧
        tick w' = tick w + 2 * length (visited ignorePrefix order).
Proof.
  intros Hopen. revert w. induction order as [|[name h] rest IH]; intros w Hlive.
  - exists w. split; [reflexivity|]. simpl. lia.
  - apply Forall_cons in Hlive as [Hhd Htl].
    destruct (HasPrefix name ignorePrefix) eqn:Hp.
    + rewrite fileloop_skip by exact Hp.
      destruct (IH _ Htl) as (w' & Hrun & Ht). exists w'. split; [exact Hrun|].
      unfold visited in *. by rewrite filter_cons_False by (simpl; by rewrite Hp).
    + destruct Hhd as (a & b & Ha & [fw Hw] & Hb & [lg Hl]). simpl in Ha, Hb. subst h.
      rewrite (fileloop_cons_ok _ _ _ _ _ _ _ _ _ Hp Hw (Hopen _ _) Hb Hl).
      destruct (IH (visit_ok name a fw b lg w)) as (w' & Hrun & Ht).
      { eapply Forall_impl; [exact Htl|]. intros e. apply live_entry_visit_ok. }
      exists w'. split; [exact Hrun|].
      unfold visited in *. rewrite filter_cons_True by (simpl; exact Hp).
      simpl in *. lia.
Qed.

(** X9.  When every open succeeds, a pass over live entries runs to the
    end of the range: every entry it does not skip is reopened and
    marked, in the order of the range, with two readings of the
    environment each; [abortFunc] is not called; and if no two of these
    entries share a writer, each of their writers is open on a
    descriptor of this pass. *)
Theorem fileloop_completes (ignorePrefix : string) (x : LogHandleMap)
        (order : list (string * ptr)) (w : World) :
  (∀ k path, os_OpenFile k path = None) →
  Forall (live_entry x w) order →
  ∃ w' chunks,
    fileloop ignorePrefix x order w = Ret Completed w' ∧
    Forall2 (reopened_and_marked x w w') (visited ignorePrefix order) chunks ∧
    trace w' = trace w ++ concat chunks ∧
    aborts (trace w') = aborts (trace w) ∧
    length (records (trace w')) =
      length (records (trace w)) + length (visited ignorePrefix order) ∧
    tick w' = tick w + 2 * length (visited ignorePrefix order) ∧
    (NoDup (visited ignorePrefix order).*2 →
     ∀ n a, (n, Addr a) ∈ visited ignorePrefix order →
            ∃ fw k, writers w !! a = Some fw ∧ tick w < k ≤ tick w' ∧
                    writers w' !! a = Some (mkFileWriter (Name fw) (Some k))).
Proof.
  intros Hopen Hlive.
  destruct (fileloop_all_open ignorePrefix x order w Hopen Hlive) as (w' & Hrun & Ht).
  destruct (fileloop_sound _ _ _ _ _ _ Hrun)
    as (pre & post & chunks & Hord & HF & _ & _ & _ & _ & _ & Hre & -> & Htr).
  rewrite app_nil_r in Hord. subst pre. simpl in Hre. rewrite app_nil_r in Hre.
  destruct (chunks_read _ _ _ _ _ HF) as (Ha & Hr & _ & _ & _).
  exists w', chunks.
  split; [exact Hrun|]. split; [exact HF|]. split; [exact Htr|].
  split; [by rewrite Htr, aborts_app, Ha, app_nil_r|].
  split; [by rewrite Htr, records_app, length_app, Hr|].
  split; [exact Ht|]. exact Hre.
Qed.

(** X10.  A pass panics at an entry it does not skip whose handle is nil,
    before anything is opened.  At an entry whose name has no logger in
    [lmap] it panics after the writer was reopened with success: the
    writer is on its new descriptor, no marker is written, [abortFunc]
    is not called and the rest of the range is not visited. *)
Theorem fileloop_panics_without_logger (ignorePrefix : string) (x : LogHandleMap)
        (name : string) (a : nat) (fw : FileWriter)
        (rest : list (string * ptr)) (w : World) :
  HasPrefix name ignorePrefix = false →
  writers w !! a = Some fw →
  os_OpenFile (S (tick w)) (Name fw) = None →
  getLoggerNolock name x = nil_ptr →
  fileloop ignorePrefix x ((name, Addr a) :: rest) w
  = Panics (mkWorld (loggers w)
                    (<[a := mkFileWriter (Name fw) (Some (S (tick w)))]> (writers w))
                    (S (tick w)) (chans w)
                    (trace w ++ [EvOpenFile (Name fw) None])) ∧
  fileloop ignorePrefix x ((name, nil_ptr) :: rest) w = Panics w.
Proof.
  intros Hp Hw Ho Hb. split.
  - simpl. rewrite Hp, Hb.
    unfold FileWriter_Reopen, FileWriter_reopen, Logger_Level, load_logger.
    munfold. simpl. rewrite Hw. simpl. rewrite Ho. reflexivity.
  - simpl. by rewrite Hp.
Qed.

Lemma ranges_elem (m : gmap string ptr) (order : list (string * ptr))
      (k : string) (p : ptr) :
  ranges m order → (k, p) ∈ order → m !! k = Some p.
Proof.
  unfold ranges. intros Hperm Hin. rewrite Hperm in Hin.
  by apply elem_of_map_to_list in Hin.
Qed.

Lemma visited_touched_subseteq (ignorePrefix : string) (pre post : list (string * ptr)) :
  visited ignorePrefix (pre ++ take 1 post) ⊆ pre ++ post.
Proof.
  intros e He. apply visited_subseteq in He.
  apply elem_of_app in He as [He | He]; apply elem_of_app; [by left|right].
  destruct post as [|e0 post]; simpl in He; [by apply elem_of_nil in He|].
  apply list_elem_of_singleton in He as ->. left.
Qed.

(** X11.  After [Del key] no pass visits [key]: the name is not in the
    range, and when no other name is registered with the same writer the
    writer that was under [key] is not in it either and is left by the
    pass as it was. *)
Theorem Del_entry_not_visited (ignorePrefix key : string) (x : LogHandleMap)
        (order : list (string * ptr)) (w w' : World) (r : Pass) (a : nat) :
  hmap x !! key = Some (Addr a) →
  (∀ k, k ≠ key → hmap x !! k ≠ Some (Addr a)) →
  Reopen_pass ignorePrefix (Del key x) order w r w' →
  (key ∉ order.*1) ∧ (Addr a ∉ order.*2) ∧ writers w' !! a = writers w !! a.
Proof.
  intros Hkey Hshare [Hrange Hrun].
  assert (Hin : ∀ k p, (k, p) ∈ order → k ≠ key ∧ hmap x !! k = Some p).
  { intros k p Hkp. apply (ranges_elem _ _ _ _ Hrange) in Hkp.
    unfold rangeLock, Del in Hkp. simpl in Hkp.
    apply lookup_delete_Some in Hkp as [Hne Hl]. split; [congruence | exact Hl]. }
  assert (Hk : key ∉ order.*1).
  { intros Hc. apply list_elem_of_fmap in Hc as ([k p] & Heq & Hkp). simpl in Heq. subst k.
    by destruct (Hin _ _ Hkp). }
  assert (Ha : Addr a ∉ order.*2).
  { intros Hc. apply list_elem_of_fmap in Hc as ([k p] & Heq & Hkp). simpl in Heq. subst p.
    destruct (Hin _ _ Hkp) as [Hne Hl]. by apply (Hshare k). }
  split; [exact Hk|]. split; [exact Ha|].
  destruct (fileloop_sound _ _ _ _ _ _ Hrun)
    as (pre & post & chunks & -> & _ & _ & _ & _ & _ & Hfr & _).
  apply Hfr. intros Hc. apply Ha.
  apply list_elem_of_fmap in Hc as (e & Heq & He).
  apply list_elem_of_fmap. exists e. split; [exact Heq|].
  by apply visited_touched_subseteq in He.
Qed.

(** X12.  On a map without handles, as [New] and [Init] return it, a
    pass has nothing to range over: it completes and the world is as it
    was. *)
Theorem Reopen_pass_empty (ignorePrefix : string) (x : LogHandleMap)
        (order : list (string * ptr)) (w w' : World) (r : Pass) :
  hmap x = ∅ →
  Reopen_pass ignorePrefix x order w r w' →
  order = [] ∧ r = Completed ∧ w' = w.
Proof.
  intros Hempty [Hrange Hrun]. unfold ranges, rangeLock in Hrange.
  rewrite Hempty, map_to_list_empty in Hrange.
  apply Permutation_nil_r in Hrange. subst order.
  simpl in Hrun. inversion Hrun. done.
Qed.


(** X15.  The first [Setup] of a map whose sentinel has an exit function
    that returns keeps what was registered before it: [hmap] is the
    same, every logger but the sentinel is still found under its name,
    and the store is untouched.  In particular a writer opened before
    [Setup], under the base path of that time, stays on its path: the
    new base path is used by later calls of [Open] only. *)
Theorem Setup_keeps_streams (basepath : string) (x : LogHandleMap) (w : World)
        (a : nat) (lg : Logger) :
  configured x = false →
  GetLogger "__early" x = Addr a →
  loggers w !! a = Some lg →
  ExitFunc lg = func_noop →
  ∃ x1 c w1,
    Setup basepath x w = Ret (x1, c) w1 ∧
    configured x1 = true ∧ bp x1 = basepath ∧ signal x1 = c ∧
    hmap x1 = hmap x ∧
    (∀ k, GetFileHandle k x1 = GetFileHandle k x) ∧
    (∀ k, k ≠ "__early" → GetLogger k x1 = GetLogger k x) ∧
    GetLogger "__early" x1 = nil_ptr ∧
    loggers w1 = loggers w ∧ writers w1 = writers w ∧
    (∀ fname, logfile x1 fname = filepath_Join basepath (fname +:+ ".log")).
Proof.
  intros Hc Hi Hl He. unfold GetLogger in Hi.
  rewrite (Setup_unconfigured basepath x w a lg Hc Hi Hl He).
  do 3 eexists. split; [reflexivity|].
  unfold GetFileHandle, GetLogger, logfile. simpl.
  split; [reflexivity|]. split; [reflexivity|]. split; [reflexivity|].
  split; [reflexivity|]. split; [reflexivity|].
  split; [intros k Hne; apply index_delete_ne; congruence|].
  split; [apply index_delete_eq|]. done.
Qed.

End Lhm.

(** ** A run of the package

    An environment in which the file of the stream [a] can never be
    opened again, and a registry of three streams. *)

(** [%s] verbs replaced by the arguments, in order. *)
Fixpoint ex_verbs (format : string) (args : list string) : string :=
  match format with
  | EmptyString => EmptyString
  | String c rest =>
      match rest with
      | String c' rest' =>
          if (Ascii.eqb c "%"%char && Ascii.eqb c' "s"%char)%bool
          then match args with
               | a :: args' => a +:+ ex_verbs rest' args'
               | [] => "%!s(MISSING)" +:+ ex_verbs rest' []
               end
          else String c (ex_verbs rest args)
      | EmptyString => String c EmptyString
      end
  end.

Definition ex_show (v : any) : string :=
  match v with
  | any_string s => s
  | any_error e => e
  | any_int _ => "?"
  end.

Definition ex_Sprintf (format : string) (args : list any) : string :=
  ex_verbs format (ex_show <$> args).

Definition ex_Sprint (args : list any) : string :=
  String.concat "" (ex_show <$> args).

Definition ex_Join (dir file : string) : string := dir +:+ "/" +:+ file.

(** The clock: one second later at every reading. *)
Definition ex_Now (k : nat) : string :=
  "2020-05-17T10:00:" +:+
  nth k ["00"; "01"; "02"; "03"; "04"; "05"; "06"; "07"; "08"; "09";
         "10"; "11"; "12"; "13"; "14"; "15"; "16"; "17"; "18"; "19"] "59"
  +:+ "Z".

Definition ex_OpenFile (k : nat) (path : string) : option error :=
  if String.eqb path "/var/log/a.log" then Some "permission denied" else None.

Definition ex_logger (a : nat) (lvl : Level) : Logger :=
  mkLogger (FileSink (Addr a)) (mkTextFormatter true true) lvl os_Exit.

Definition ex_world : World :=
  mkWorld [ex_logger 0 ErrorLevel; ex_logger 1 DebugLevel; ex_logger 2 InfoLevel]
          [mkFileWriter "/var/log/a.log" (Some 2);
           mkFileWriter "/var/log/b.log" (Some 5);
           mkFileWriter "/var/log/c.log" (Some 8)]
          9 1 [].

Definition ex_map : LogHandleMap :=
  Add "c" (Addr 2) (Addr 2)
    (Add "b" (Addr 1) (Addr 1)
       (Add "a" (Addr 0) (Addr 0)
          (mkLogHandleMap ∅ ∅ "/var/log" (Chan 0) true))).

(** The order in which the range of the pass below visits [ex_map]. *)
Definition ex_order : list (string * ptr) :=
  [("c", Addr 2); ("a", Addr 0); ("b", Addr 1)].

(** [ex_world] after a pass in which [c] is reopened and [a] fails. *)
Definition ex_world_aborted : World :=
  mkWorld (loggers ex_world)
          [mkFileWriter "/var/log/a.log" None;
           mkFileWriter "/var/log/b.log" (Some 5);
           mkFileWriter "/var/log/c.log" (Some 10)]
          12 1
          [EvOpenFile "/var/log/c.log" None;
           EvSetLevel 2 InfoLevel;
           EvWrite (FileSink (Addr 2)) InfoLevel
                   "Reopened logfile `c` for logrotate at 2020-05-17T10:00:11Z";
           EvSetLevel 2 InfoLevel;
           EvOpenFile "/var/log/a.log" (Some "permission denied");
           EvAbort "permission denied"].

(** A map as [New] returns it, and the world after [Open] of [app]. *)
Definition ex_new : LogHandleMap := mkLogHandleMap ∅ ∅ "/var/log" (Chan 0) true.



Definition ex_new_world : World := mkWorld [] [] 0 1 [EvNotify 0].

Definition ex_opened_world : World :=
  mkWorld [ex_logger 0 ErrorLevel]
          [mkFileWriter "/var/log/app.log" (Some 2)]
          3 1
          [EvNotify 0;
           EvRename "/var/log/app.log" "/var/log/app.log.2020-05-17T10:00:01Z";
           EvOpenFile "/var/log/app.log" None;
           EvWrite (FileSink (Addr 0)) InfoLevel
                   "Started logfile `app` at 2020-05-17T10:00:03Z";
           EvSetLevel 0 ErrorLevel].

Example ex_run_aborted :
  fileloop ex_OpenFile ex_Now ex_Sprintf "early" ex_map ex_order ex_world
  = Ret (Aborted "permission denied") ex_world_aborted.
Proof. vm_compute. reflexivity. Qed.

Example ex_run_Open :
  Open ex_OpenFile ex_Now ex_Join ex_Sprintf "app" ErrorLevel ex_new ex_new_world
  = Ret (Add "app" (Addr 0) (Addr 0) ex_new, None) ex_opened_world.
Proof. vm_compute. reflexivity. Qed.

Example ex_New : New "/var/log" (mkWorld [] [] 0 0 []) = Ret (ex_new, Chan 0) ex_new_world.
Proof. reflexivity. Qed.

Example ex_Init_then_EarlyFatal :
  (x ← Init ex_Now ex_Sprintf;
   EarlyFatal ex_Sprint [any_string "no config: "; any_error "ENOENT"] x)
    (mkWorld [] [] 0 0 [])
  = Ret tt
        (mkWorld [mkLogger reopen_Stderr (mkTextFormatter true true)
                           DebugLevel func_noop]
                 [] 1 0
                 [EvWrite reopen_Stderr InfoLevel
                          "Started early logging at 2020-05-17T10:00:01Z";
                  EvSetLevel 0 DebugLevel;
                  EvWrite reopen_Stderr FatalLevel "no config: ENOENT"]).
Proof. vm_compute. reflexivity. Qed.

Example ex_Open_failure :
  Open ex_OpenFile ex_Now ex_Join ex_Sprintf "a" InfoLevel ex_new ex_new_world
  = Ret (ex_new, Some "permission denied")
        (mkWorld [] [] 2 1
                 [EvNotify 0;
                  EvRename "/var/log/a.log" "/var/log/a.log.2020-05-17T10:00:01Z";
                  EvOpenFile "/var/log/a.log" (Some "permission denied")]).
Proof. vm_compute. reflexivity. Qed.

Example ex_Reopen_empty_prefix :
  Reopen ex_OpenFile ex_Now ex_Sprintf "" ex_map [ex_order; ex_order] ex_world
  = Ret tt ex_world.
Proof. vm_compute. reflexivity. Qed.

Example ex_HasPrefix :
  HasPrefix "early-boot" "early" = true ∧ HasPrefix "ear" "early" = false ∧
  HasPrefix "c" "early" = false.
Proof. by vm_compute. Qed.

Lemma ex_order_ranges : ranges (rangeLock ex_map) ex_order.
Proof. unfold ranges. by vm_compute. Qed.

Lemma ex_order_NoDup : NoDup ex_order.*2.
Proof. apply (bool_decide_unpack _). by vm_compute. Qed.

Lemma ex_order_live : Forall (live_entry ex_map ex_world) ex_order.
Proof.
  repeat constructor.
  - exists 2, 2. repeat split; try (by vm_compute); vm_compute; eauto.
  - exists 0, 0. repeat split; try (by vm_compute); vm_compute; eauto.
  - exists 1, 1. repeat split; try (by vm_compute); vm_compute; eauto.
Qed.

(** The pass of [ex_run_aborted] is a pass of C1: [c] was reopened and
    marked, the reopen of [a] failed, [b] was not visited. *)
Lemma Reopen_pass_aborted_witness :
  Reopen_pass ex_OpenFile ex_Now ex_Sprintf "early" ex_map ex_order ex_world
              (Aborted "permission denied") ex_world_aborted ∧
  NoDup ex_order.*2 ∧
  ∃ pre name a fw post chunks,
    ex_order = pre ++ (name, Addr a) :: post ∧
    HasPrefix name "early" = false ∧
    writers ex_world !! a = Some fw ∧
    Forall2 (reopened_and_marked ex_Now ex_Sprintf ex_map ex_world ex_world_aborted)
            (visited "early" pre) chunks ∧
    trace ex_world_aborted =
      trace ex_world ++ concat chunks
        ++ [EvOpenFile (Name fw) (Some "permission denied");
            EvAbort "permission denied"] ∧
    aborts (trace ex_world_aborted) =
      aborts (trace ex_world) ++ ["permission denied"] ∧
    opens (trace ex_world_aborted) =
      opens (trace ex_world) ++ opens (concat chunks)
        ++ [(Name fw, Some "permission denied")] ∧
    Forall (λ o, o.2 = None) (opens (concat chunks)) ∧
    length (opens (concat chunks)) = length (visited "early" pre) ∧
    length (records (trace ex_world_aborted)) =
      length (records (trace ex_world)) + length (visited "early" pre) ∧
    loggers ex_world_aborted = loggers ex_world ∧
    (∀ a', Addr a' ∉ (visited "early" (pre ++ [(name, Addr a)])).*2 →
           writers ex_world_aborted !! a' = writers ex_world !! a') ∧
    (NoDup ex_order.*2 →
     (∀ n a', (n, Addr a') ∈ visited "early" pre →
              ∃ fw' k, writers ex_world !! a' = Some fw' ∧
                       tick ex_world < k ≤ tick ex_world_aborted ∧
                       writers ex_world_aborted !! a'
                       = Some (mkFileWriter (Name fw') (Some k))) ∧
     writers ex_world_aborted !! a = Some (mkFileWriter (Name fw) None) ∧
     (∀ n a', (n, Addr a') ∈ post →
              writers ex_world_aborted !! a' = writers ex_world !! a')).
Proof.
  assert (H1 : Reopen_pass ex_OpenFile ex_Now ex_Sprintf "early" ex_map ex_order
                           ex_world (Aborted "permission denied") ex_world_aborted)
    by (split; [exact ex_order_ranges | exact ex_run_aborted]).
  split; [exact H1|]. split; [exact ex_order_NoDup|].
  exact (Reopen_pass_aborted ex_OpenFile ex_Now ex_Sprintf "early" ex_map ex_order
                             ex_world ex_world_aborted "permission denied" H1).
Defined.


(** [Open] of [app] on a new map, for C3. *)
Lemma Open_then_Get_witness :
  Open ex_OpenFile ex_Now ex_Join ex_Sprintf "app" ErrorLevel ex_new ex_new_world
  = Ret (Add "app" (Addr 0) (Addr 0) ex_new, None) ex_opened_world ∧
  ∃ a b fw lg,
    GetFileHandle "app" (Add "app" (Addr 0) (Addr 0) ex_new) = Addr a ∧
    GetLogger "app" (Add "app" (Addr 0) (Addr 0) ex_new) = Addr b ∧
    writers ex_new_world !! a = None ∧ writers ex_opened_world !! a = Some fw ∧
    loggers ex_new_world !! b = None ∧ loggers ex_opened_world !! b = Some lg ∧
    Name fw = logfile ex_Join ex_new "app" ∧ is_Some (f fw) ∧
    Out lg = FileSink (Addr a) ∧
    Level_ lg = ErrorLevel.
Proof.
  split; [exact ex_run_Open|].
  exact (Open_then_Get ex_OpenFile ex_Now ex_Join ex_Sprintf "app" ErrorLevel
                       ex_new _ ex_new_world ex_opened_world ex_run_Open).
Defined.

(** A second [Setup], with another base path, on a configured map. *)
Lemma Setup_configured_noop_witness :
  configured ex_map = true ∧
  Setup "/srv/elsewhere" ex_map ex_world = Ret (ex_map, signal ex_map) ex_world ∧
  (∀ p0 w0 c, New p0 w0 = Ret (ex_map, c) ex_world → c = signal ex_map) ∧
  (∀ p0 x0 w0 c, Setup p0 x0 w0 = Ret (ex_map, c) ex_world → c = signal ex_map).
Proof.
  split; [reflexivity|].
  exact (Setup_configured_noop "/srv/elsewhere" ex_map ex_world eq_refl).
Defined.

(** The same call of [Open], for the order of its marker and its level. *)
Lemma Open_marker_then_level_witness :
  Open ex_OpenFile ex_Now ex_Join ex_Sprintf "app" ErrorLevel ex_new ex_new_world
  = Ret (Add "app" (Addr 0) (Addr 0) ex_new, None) ex_opened_world ∧
  ∃ a b oldpath,
    GetFileHandle "app" (Add "app" (Addr 0) (Addr 0) ex_new) = Addr a ∧
    GetLogger "app" (Add "app" (Addr 0) (Addr 0) ex_new) = Addr b ∧
    trace ex_opened_world =
      trace ex_new_world ++
        [EvRename (logfile ex_Join ex_new "app") oldpath;
         EvOpenFile (logfile ex_Join ex_new "app") None;
         EvWrite (FileSink (Addr a)) InfoLevel
                 (started_marker ex_Now ex_Sprintf "app" (tick ex_opened_world));
         EvSetLevel b ErrorLevel] ∧
    precedes (EvWrite (FileSink (Addr a)) InfoLevel
                      (started_marker ex_Now ex_Sprintf "app" (tick ex_opened_world)))
             (EvSetLevel b ErrorLevel) (trace ex_opened_world) ∧
    records (trace ex_opened_world) =
      records (trace ex_new_world) ++
        [(FileSink (Addr a), InfoLevel,
          started_marker ex_Now ex_Sprintf "app" (tick ex_opened_world))].
Proof.
  split; [exact ex_run_Open|].
  exact (Open_marker_then_level ex_OpenFile ex_Now ex_Join ex_Sprintf "app" ErrorLevel
                                ex_new _ ex_new_world ex_opened_world ex_run_Open).
Defined.

(** ** Where the code departs from the specification *)


(** C7 as stated fails: the level of the sentinel logger of [Init],
    [DebugLevel], is not the most verbose level of logrus; [TraceLevel]
    ranks above it. *)
Lemma Init_level_not_most_verbose :
  ∃ x w' a lg,
    Init ex_Now ex_Sprintf (mkWorld [] [] 0 0 []) = Ret x w' ∧
    lmap x !! "__early" = Some (Addr a) ∧
    loggers w' !! a = Some lg ∧
    ¬ most_verbose (Level_ lg).
Proof.
  exists (Init_map (mkWorld [] [] 0 0 [])),
    (Init_world ex_Now ex_Sprintf (mkWorld [] [] 0 0 [])), 0,
    (mkLogger reopen_Stderr (mkTextFormatter true true) DebugLevel func_noop).
  split; [apply Init_eval|]. split; [by vm_compute|]. split; [reflexivity|].
  intros Hmost. specialize (Hmost TraceLevel). simpl in Hmost. lia.
Qed.

(** C8 as stated fails: in [Open "app" ErrorLevel] the marker is written,
    at [InfoLevel], which a logger set to [ErrorLevel] does not let
    through, and no level change of the new logger comes before it in
    the trace. *)
Lemma Open_level_not_set_before_marker :
  ∃ x' w',
    Open ex_OpenFile ex_Now ex_Join ex_Sprintf "app" ErrorLevel ex_new ex_new_world
    = Ret (x', None) w' ∧
    GetLogger "app" x' = Addr 0 ∧
    IsLevelEnabled (ex_logger 0 ErrorLevel) InfoLevel = false ∧
    (FileSink (Addr 0), InfoLevel, "Started logfile `app` at 2020-05-17T10:00:03Z")
      ∈ records (trace w') ∧
    (∀ l, ¬ precedes (EvSetLevel 0 l)
                     (EvWrite (FileSink (Addr 0)) InfoLevel
                              "Started logfile `app` at 2020-05-17T10:00:03Z")
                     (trace w')).
Proof.
  exists (Add "app" (Addr 0) (Addr 0) ex_new), ex_opened_world.
  split; [exact ex_run_Open|]. split; [by vm_compute|]. split; [reflexivity|].
  split; [apply list_elem_of_In; vm_compute; auto|].
  intros l (i & j & Hlt & Hi & Hj).
  do 5 (destruct i as [|i]; [simpl in Hi; try discriminate Hi|]);
    [|simpl in Hi; discriminate Hi].
  do 5 (destruct j as [|j]; [simpl in Hj; try discriminate Hj; try lia|]).
  simpl in Hj. discriminate Hj.
Qed.

(** ** More runs of the package *)

(** [filepath.Join] of a directory and a file name, the empty directory
    included. *)
Definition ex_Join_clean (dir file : string) : string :=
  if String.eqb dir "" then file else dir +:+ "/" +:+ file.

(** An environment in which every file opens. *)
Definition ex_OpenFile_ok (k : nat) (path : string) : option error := None.

(** [ex_new_world] after the failed [Open] of [a]. *)
Definition ex_failed_world : World :=
  mkWorld [] [] 2 1
          [EvNotify 0;
           EvRename "/var/log/a.log" "/var/log/a.log.2020-05-17T10:00:01Z";
           EvOpenFile "/var/log/a.log" (Some "permission denied")].

(** [ex_opened_world] after a second [Open] of [app]. *)
Definition ex_opened_twice_world : World :=
  mkWorld [ex_logger 0 ErrorLevel; ex_logger 1 DebugLevel]
          [mkFileWriter "/var/log/app.log" (Some 2);
           mkFileWriter "/var/log/app.log" (Some 5)]
          6 1
          (trace ex_opened_world ++
             [EvRename "/var/log/app.log" "/var/log/app.log.2020-05-17T10:00:04Z";
              EvOpenFile "/var/log/app.log" None;
              EvWrite (FileSink (Addr 1)) InfoLevel
                      "Started logfile `app` at 2020-05-17T10:00:06Z";
              EvSetLevel 1 DebugLevel]).

(** [ex_world] after a pass in which all three streams are reopened. *)
Definition ex_world_completed : World :=
  mkWorld (loggers ex_world)
          [mkFileWriter "/var/log/a.log" (Some 12);
           mkFileWriter "/var/log/b.log" (Some 14);
           mkFileWriter "/var/log/c.log" (Some 10)]
          15 1
          [EvOpenFile "/var/log/c.log" None;
           EvSetLevel 2 InfoLevel;
           EvWrite (FileSink (Addr 2)) InfoLevel
                   "Reopened logfile `c` for logrotate at 2020-05-17T10:00:11Z";
           EvSetLevel 2 InfoLevel;
           EvOpenFile "/var/log/a.log" None;
           EvSetLevel 0 InfoLevel;
           EvWrite (FileSink (Addr 0)) InfoLevel
                   "Reopened logfile `a` for logrotate at 2020-05-17T10:00:13Z";
           EvSetLevel 0 ErrorLevel;
           EvOpenFile "/var/log/b.log" None;
           EvSetLevel 1 InfoLevel;
           EvWrite (FileSink (Addr 1)) InfoLevel
                   "Reopened logfile `b` for logrotate at 2020-05-17T10:00:15Z";
           EvSetLevel 1 DebugLevel].

Example ex_run_Open_twice :
  Open ex_OpenFile ex_Now ex_Join ex_Sprintf "app" DebugLevel
       (Add "app" (Addr 0) (Addr 0) ex_new) ex_opened_world
  = Ret (Add "app" (Addr 1) (Addr 1) (Add "app" (Addr 0) (Addr 0) ex_new), None)
        ex_opened_twice_world.
Proof. vm_compute. reflexivity. Qed.

Example ex_run_completed :
  fileloop ex_OpenFile_ok ex_Now ex_Sprintf "early" ex_map ex_order ex_world
  = Ret Completed ex_world_completed.
Proof. vm_compute. reflexivity. Qed.

Example ex_run_aborted_after_Del :
  fileloop ex_OpenFile ex_Now ex_Sprintf "early" (Del "b" ex_map)
           [("c", Addr 2); ("a", Addr 0)] ex_world
  = Ret (Aborted "permission denied") ex_world_aborted.
Proof. vm_compute. reflexivity. Qed.


Lemma Open_error_registers_nothing_witness :
  Open ex_OpenFile ex_Now ex_Join ex_Sprintf "a" InfoLevel ex_new ex_new_world
  = Ret (ex_new, Some "permission denied") ex_failed_world ∧
  ex_new = ex_new ∧
  ex_OpenFile (S (S (tick ex_new_world))) (logfile ex_Join ex_new "a")
  = Some "permission denied" ∧
  loggers ex_failed_world = loggers ex_new_world ∧
  writers ex_failed_world = writers ex_new_world ∧
  chans ex_failed_world = chans ex_new_world ∧
  trace ex_failed_world =
    trace ex_new_world ++
      [EvRename (logfile ex_Join ex_new "a")
                (ex_Join (bp ex_new)
                   ("a" +:+ ".log." +:+ ex_Now (S (tick ex_new_world))));
       EvOpenFile (logfile ex_Join ex_new "a") (Some "permission denied")] ∧
  records (trace ex_failed_world) = records (trace ex_new_world).
Proof.
  split; [exact ex_Open_failure|].
  exact (Open_error_registers_nothing ex_OpenFile ex_Now ex_Join ex_Sprintf "a" InfoLevel
                                      ex_new ex_new ex_new_world ex_failed_world
                                      "permission denied" ex_Open_failure).
Defined.

Lemma Open_keeps_the_rest_witness :
  Open ex_OpenFile ex_Now ex_Join ex_Sprintf "app" ErrorLevel ex_new ex_new_world
  = Ret (Add "app" (Addr 0) (Addr 0) ex_new, None) ex_opened_world ∧
  bp (Add "app" (Addr 0) (Addr 0) ex_new) = bp ex_new ∧
  signal (Add "app" (Addr 0) (Addr 0) ex_new) = signal ex_new ∧
  configured (Add "app" (Addr 0) (Addr 0) ex_new) = configured ex_new ∧
  (∀ k, k ≠ "app" →
        GetFileHandle k (Add "app" (Addr 0) (Addr 0) ex_new) = GetFileHandle k ex_new ∧
        GetLogger k (Add "app" (Addr 0) (Addr 0) ex_new) = GetLogger k ex_new) ∧
  (∀ a lg, loggers ex_new_world !! a = Some lg → loggers ex_opened_world !! a = Some lg) ∧
  (∀ a fw, writers ex_new_world !! a = Some fw → writers ex_opened_world !! a = Some fw) ∧
  chans ex_opened_world = chans ex_new_world ∧
  aborts (trace ex_opened_world) = aborts (trace ex_new_world).
Proof.
  split; [exact ex_run_Open|].
  exact (Open_keeps_the_rest ex_OpenFile ex_Now ex_Join ex_Sprintf "app" ErrorLevel
                             ex_new _ ex_new_world ex_opened_world None ex_run_Open).
Defined.

Lemma Open_twice_replaces_witness :
  Open ex_OpenFile ex_Now ex_Join ex_Sprintf "app" ErrorLevel ex_new ex_new_world
  = Ret (Add "app" (Addr 0) (Addr 0) ex_new, None) ex_opened_world ∧
  Open ex_OpenFile ex_Now ex_Join ex_Sprintf "app" DebugLevel
       (Add "app" (Addr 0) (Addr 0) ex_new) ex_opened_world
  = Ret (Add "app" (Addr 1) (Addr 1) (Add "app" (Addr 0) (Addr 0) ex_new), None)
        ex_opened_twice_world ∧
  hmap (Add "app" (Addr 1) (Addr 1) (Add "app" (Addr 0) (Addr 0) ex_new))
  = <["app" := Addr (S (length (writers ex_new_world)))]> (hmap ex_new) ∧
  lmap (Add "app" (Addr 1) (Addr 1) (Add "app" (Addr 0) (Addr 0) ex_new))
  = <["app" := Addr (S (length (loggers ex_new_world)))]> (lmap ex_new) ∧
  GetFileHandle "app" (Add "app" (Addr 0) (Addr 0) ex_new)
  = Addr (length (writers ex_new_world)) ∧
  GetFileHandle "app" (Add "app" (Addr 1) (Addr 1) (Add "app" (Addr 0) (Addr 0) ex_new))
  = Addr (S (length (writers ex_new_world))) ∧
  GetLogger "app" (Add "app" (Addr 0) (Addr 0) ex_new)
  = Addr (length (loggers ex_new_world)) ∧
  GetLogger "app" (Add "app" (Addr 1) (Addr 1) (Add "app" (Addr 0) (Addr 0) ex_new))
  = Addr (S (length (loggers ex_new_world))) ∧
  writers ex_opened_twice_world !! length (writers ex_new_world)
  = Some (mkFileWriter (logfile ex_Join ex_new "app") (Some (S (S (tick ex_new_world))))) ∧
  writers ex_opened_twice_world !! S (length (writers ex_new_world))
  = Some (mkFileWriter (logfile ex_Join ex_new "app")
                       (Some (S (S (tick ex_opened_world))))) ∧
  (∃ lg1 lg2,
     loggers ex_opened_twice_world !! length (loggers ex_new_world) = Some lg1 ∧
     Level_ lg1 = ErrorLevel ∧
     loggers ex_opened_twice_world !! S (length (loggers ex_new_world)) = Some lg2 ∧
     Level_ lg2 = DebugLevel).
Proof.
  split; [exact ex_run_Open|]. split; [exact ex_run_Open_twice|].
  exact (Open_twice_replaces ex_OpenFile ex_Now ex_Join ex_Sprintf "app"
                             ErrorLevel DebugLevel ex_new _ _
                             ex_new_world ex_opened_world ex_opened_twice_world
                             ex_run_Open ex_run_Open_twice).
Defined.

Lemma Open_early_then_Setup_exits_witness :
  ex_OpenFile (S (S (S (tick (mkWorld [] [] 0 0 [])))))
              (ex_Join_clean "" ("__early" +:+ ".log")) = None ∧
  ∃ x0 w0 x1 w1 w2,
    Init ex_Now ex_Sprintf (mkWorld [] [] 0 0 []) = Ret x0 w0 ∧
    Open ex_OpenFile ex_Now ex_Join_clean ex_Sprintf "__early" WarnLevel x0 w0
    = Ret (x1, None) w1 ∧
    configured x1 = false ∧
    GetLogger "__early" x1 ≠ GetLogger "__early" x0 ∧
    Setup "/var/log" x1 w1 = Exits 0 w1 ∧
    EarlyFatal ex_Sprint [any_string "stop"] x1 w1 = Exits 1 w2.
Proof.
  split; [reflexivity|].
  exact (Open_early_then_Setup_exits ex_OpenFile ex_Now ex_Join_clean ex_Sprintf ex_Sprint
                                     WarnLevel "/var/log" [any_string "stop"]
                                     (mkWorld [] [] 0 0 []) eq_refl).
Defined.

Lemma fileloop_completes_witness :
  (∀ k path, ex_OpenFile_ok k path = None) ∧
  Forall (live_entry ex_map ex_world) ex_order ∧
  ∃ w' chunks,
    fileloop ex_OpenFile_ok ex_Now ex_Sprintf "early" ex_map ex_order ex_world
    = Ret Completed w' ∧
    Forall2 (reopened_and_marked ex_Now ex_Sprintf ex_map ex_world w')
            (visited "early" ex_order) chunks ∧
    trace w' = trace ex_world ++ concat chunks ∧
    aborts (trace w') = aborts (trace ex_world) ∧
    length (records (trace w')) =
      length (records (trace ex_world)) + length (visited "early" ex_order) ∧
    tick w' = tick ex_world + 2 * length (visited "early" ex_order) ∧
    (NoDup (visited "early" ex_order).*2 →
     ∀ n a, (n, Addr a) ∈ visited "early" ex_order →
            ∃ fw k, writers ex_world !! a = Some fw ∧ tick ex_world < k ≤ tick w' ∧
                    writers w' !! a = Some (mkFileWriter (Name fw) (Some k))).
Proof.
  split; [reflexivity|]. split; [exact ex_order_live|].
  exact (fileloop_completes ex_OpenFile_ok ex_Now ex_Sprintf "early" ex_map ex_order
                            ex_world (λ _ _, eq_refl) ex_order_live).
Defined.

Lemma fileloop_panics_without_logger_witness :
  HasPrefix "d" "early" = false ∧
  writers ex_world !! 1 = Some (mkFileWriter "/var/log/b.log" (Some 5)) ∧
  ex_OpenFile (S (tick ex_world)) (Name (mkFileWriter "/var/log/b.log" (Some 5))) = None ∧
  getLoggerNolock "d" (Add "d" (Addr 1) nil_ptr ex_map) = nil_ptr ∧
  fileloop ex_OpenFile ex_Now ex_Sprintf "early" (Add "d" (Addr 1) nil_ptr ex_map)
           [("d", Addr 1)] ex_world
  = Panics (mkWorld (loggers ex_world)
                    (<[1 := mkFileWriter (Name (mkFileWriter "/var/log/b.log" (Some 5)))
                                         (Some (S (tick ex_world)))]> (writers ex_world))
                    (S (tick ex_world)) (chans ex_world)
                    (trace ex_world
                       ++ [EvOpenFile (Name (mkFileWriter "/var/log/b.log" (Some 5))) None])) ∧
  fileloop ex_OpenFile ex_Now ex_Sprintf "early" (Add "d" (Addr 1) nil_ptr ex_map)
           [("d", nil_ptr)] ex_world
  = Panics ex_world.
Proof.
  assert (Hb : getLoggerNolock "d" (Add "d" (Addr 1) nil_ptr ex_map) = nil_ptr)
    by (by vm_compute).
  split; [by vm_compute|]. split; [reflexivity|]. split; [reflexivity|].
  split; [exact Hb|].
  exact (fileloop_panics_without_logger ex_OpenFile ex_Now ex_Sprintf "early"
           (Add "d" (Addr 1) nil_ptr ex_map) "d" 1
           (mkFileWriter "/var/log/b.log" (Some 5)) [] ex_world
           eq_refl eq_refl eq_refl Hb).
Defined.

Lemma ex_map_b_not_shared : ∀ k, k ≠ "b" → hmap ex_map !! k ≠ Some (Addr 1).
Proof.
  intros k Hne. unfold ex_map, Add. simpl.
  rewrite !lookup_insert. repeat case_decide; try congruence.
  by rewrite lookup_empty.
Qed.

Lemma ex_order_after_Del : ranges (rangeLock (Del "b" ex_map)) [("c", Addr 2); ("a", Addr 0)].
Proof. unfold ranges. by vm_compute. Qed.

Lemma Del_entry_not_visited_witness :
  hmap ex_map !! "b" = Some (Addr 1) ∧
  (∀ k, k ≠ "b" → hmap ex_map !! k ≠ Some (Addr 1)) ∧
  Reopen_pass ex_OpenFile ex_Now ex_Sprintf "early" (Del "b" ex_map)
              [("c", Addr 2); ("a", Addr 0)] ex_world
              (Aborted "permission denied") ex_world_aborted ∧
  ("b" ∉ [("c", Addr 2); ("a", Addr 0)].*1) ∧
  (Addr 1 ∉ [("c", Addr 2); ("a", Addr 0)].*2) ∧
  writers ex_world_aborted !! 1 = writers ex_world !! 1.
Proof.
  assert (H1 : hmap ex_map !! "b" = Some (Addr 1)) by (by vm_compute).
  assert (H3 : Reopen_pass ex_OpenFile ex_Now ex_Sprintf "early" (Del "b" ex_map)
                           [("c", Addr 2); ("a", Addr 0)] ex_world
                           (Aborted "permission denied") ex_world_aborted)
    by (split; [exact ex_order_after_Del | exact ex_run_aborted_after_Del]).
  split; [exact H1|]. split; [exact ex_map_b_not_shared|]. split; [exact H3|].
  exact (Del_entry_not_visited ex_OpenFile ex_Now ex_Sprintf "early" "b" ex_map
                               [("c", Addr 2); ("a", Addr 0)] ex_world ex_world_aborted
                               (Aborted "permission denied") 1
                               H1 ex_map_b_not_shared H3).
Defined.

Lemma Reopen_pass_empty_witness :
  hmap ex_new = ∅ ∧
  Reopen_pass ex_OpenFile ex_Now ex_Sprintf "early" ex_new [] ex_new_world
              Completed ex_new_world ∧
  [] = ([] : list (string * ptr)) ∧ Completed = Completed ∧ ex_new_world = ex_new_world.
Proof.
  assert (H2 : Reopen_pass ex_OpenFile ex_Now ex_Sprintf "early" ex_new [] ex_new_world
                           Completed ex_new_world).
  { split; [|reflexivity]. unfold ranges, rangeLock. simpl.
    by rewrite map_to_list_empty. }
  split; [reflexivity|]. split; [exact H2|].
  exact (Reopen_pass_empty ex_OpenFile ex_Now ex_Sprintf "early" ex_new []
                           ex_new_world ex_new_world Completed eq_refl H2).
Defined.


(** The map of [Init] with the stream [app] opened before [Setup]. *)
Definition ex_early_map : LogHandleMap :=
  Add "app" (Addr 0) (Addr 1) (Init_map (mkWorld [] [] 0 0 [])).

Definition ex_early_world : World :=
  mkWorld [mkLogger reopen_Stderr (mkTextFormatter true true) DebugLevel func_noop;
           mkLogger (FileSink (Addr 0)) (mkTextFormatter true true) InfoLevel os_Exit]
          [mkFileWriter "app.log" (Some 3)]
          4 0
          [EvWrite reopen_Stderr InfoLevel "Started early logging at 2020-05-17T10:00:01Z";
           EvSetLevel 0 DebugLevel;
           EvRename "app.log" "app.log.2020-05-17T10:00:02Z";
           EvOpenFile "app.log" None;
           EvWrite (FileSink (Addr 0)) InfoLevel
                   "Started logfile `app` at 2020-05-17T10:00:04Z";
           EvSetLevel 1 InfoLevel].

Example ex_run_Init_Open :
  (x ← Init ex_Now ex_Sprintf;
   Open ex_OpenFile ex_Now ex_Join_clean ex_Sprintf "app" InfoLevel x) (mkWorld [] [] 0 0 [])
  = Ret (ex_early_map, None) ex_early_world.
Proof. vm_compute. reflexivity. Qed.

Lemma Setup_keeps_streams_witness :
  configured ex_early_map = false ∧
  GetLogger "__early" ex_early_map = Addr 0 ∧
  loggers ex_early_world !! 0
  = Some (mkLogger reopen_Stderr (mkTextFormatter true true) DebugLevel func_noop) ∧
  ExitFunc (mkLogger reopen_Stderr (mkTextFormatter true true) DebugLevel func_noop)
  = func_noop ∧
  ∃ x1 c w1,
    Setup "/var/log" ex_early_map ex_early_world = Ret (x1, c) w1 ∧
    configured x1 = true ∧ bp x1 = "/var/log" ∧ signal x1 = c ∧
    hmap x1 = hmap ex_early_map ∧
    (∀ k, GetFileHandle k x1 = GetFileHandle k ex_early_map) ∧
    (∀ k, k ≠ "__early" → GetLogger k x1 = GetLogger k ex_early_map) ∧
    GetLogger "__early" x1 = nil_ptr ∧
    loggers w1 = loggers ex_early_world ∧ writers w1 = writers ex_early_world ∧
    (∀ fname, logfile ex_Join_clean x1 fname
              = ex_Join_clean "/var/log" (fname +:+ ".log")).
Proof.
  assert (Hi : GetLogger "__early" ex_early_map = Addr 0) by (by vm_compute).
  split; [reflexivity|]. split; [exact Hi|]. split; [reflexivity|]. split; [reflexivity|].
  exact (Setup_keeps_streams ex_Join_clean "/var/log" ex_early_map ex_early_world 0
           (mkLogger reopen_Stderr (mkTextFormatter true true) DebugLevel func_noop)
           eq_refl Hi eq_refl eq_refl).
Defined.
